(** * Grievance portal: the categorization client and its output normalizer

    A shallow embedding of the client-side pipeline of the portal:

    - [src/services/llm-models.ts]       ([parsePlainTextOutput], [callFineTunedLLM])
    - [src/services/whisper-local.ts]    ([checkLocalWhisperHealth],
                                          [transcribeAudioLocal], [translateToEnglishLocal])
    - [src/services/grievance-local.ts]  ([categorizeGrievanceLocal])
    - [src/components/ComplaintForm.tsx] ([handleTranscribe])

    Strings are sequences of code units in the range U+0000..U+00FF, one
    [ascii] per code unit.  On that alphabet [toLowerCase], [trim], [split],
    [includes] and [substring] below agree with the ECMAScript functions of the
    same names.  A JSON text whose string literals denote code units above
    U+00FF (by a unicode escape) has no value in this universe and lies
    outside the domain of the model.  JavaScript values are the JSON values
    plus [undefined].  [async] functions are modelled by their completion: a
    value returned or a value thrown (a rejected promise).  The network is a
    function from the request made to what fetch does with it. *)

From Stdlib Require Import String Ascii List Bool Arith NArith ZArith Lia DecimalString.
Import ListNotations.
Open Scope string_scope.
Set Warnings "-register-all".

(** ** String.prototype *)

Module JsString.

Definition code (c : ascii) : N := N_of_ascii c.

Definition inRange (lo hi : N) (c : ascii) : bool :=
  (lo <=? code c)%N && (code c <=? hi)%N.

(** The double quote, the line feed and the other control characters, by code. *)
Definition DQUOTE : ascii := "034"%char.
Definition LF : ascii := "010"%char.
Definition CR : ascii := "013"%char.
Definition TAB : ascii := "009"%char.
Definition BACKSLASH : ascii := "092"%char.

(** [toLowerCase] on U+0000..U+00FF: A-Z and the Latin-1 capitals
    U+00C0..U+00DE (without the multiplication sign U+00D7) move up by 32. *)
Definition lowerChar (c : ascii) : ascii :=
  if inRange 65 90 c then ascii_of_N (code c + 32)
  else if inRange 192 222 c && negb (code c =? 215)%N then ascii_of_N (code c + 32)
  else c.

Fixpoint toLowerCase (s : string) : string :=
  match s with
  | EmptyString => EmptyString
  | String c t => String (lowerChar c) (toLowerCase t)
  end.

(** WhiteSpace and LineTerminator code points below U+0100: TAB, LF, VT, FF,
    CR, SPACE and NO-BREAK SPACE. *)
Definition isWhiteSpace (c : ascii) : bool :=
  inRange 9 13 c || (code c =? 32)%N || (code c =? 160)%N.

Fixpoint trimStart (s : string) : string :=
  match s with
  | EmptyString => EmptyString
  | String c t => if isWhiteSpace c then trimStart t else s
  end.

Fixpoint trimEnd (s : string) : string :=
  match s with
  | EmptyString => EmptyString
  | String c t =>
      match trimEnd t with
      | EmptyString => if isWhiteSpace c then EmptyString else String c EmptyString
      | t' => String c t'
      end
  end.

Definition trim (s : string) : string := trimEnd (trimStart s).

(** [s.split(sep)] for a one-character separator: never the empty list. *)
Fixpoint split (sep : ascii) (s : string) : list string :=
  match s with
  | EmptyString => [EmptyString]
  | String c t =>
      if Ascii.eqb c sep then EmptyString :: split sep t
      else match split sep t with
           | [] => [String c EmptyString]
           | h :: r => String c h :: r
           end
  end.

(** [parts.join(sep)]. *)
Fixpoint join (sep : string) (parts : list string) : string :=
  match parts with
  | [] => EmptyString
  | [x] => x
  | x :: r => x ++ sep ++ join sep r
  end.

(** [hay.includes(needle)]. *)
Fixpoint includes (needle hay : string) : bool :=
  prefix needle hay ||
  match hay with
  | EmptyString => false
  | String _ t => includes needle t
  end.

(** [s.substring(0, n)]. *)
Definition substring0 (n : nat) (s : string) : string := substring 0 n s.

Definition isEmpty (s : string) : bool :=
  match s with EmptyString => true | _ => false end.

(** The longest prefix of [s] that ends with the character [c]. *)
Fixpoint uptoLast (c : ascii) (s : string) : option string :=
  match s with
  | EmptyString => None
  | String a t =>
      match uptoLast c t with
      | Some r => Some (String a r)
      | None => if Ascii.eqb a c then Some (String a EmptyString) else None
      end
  end.

(** [s.match(/\{[\s\S]*\}/)]: the match starts at the leftmost opening brace
    and, the star being greedy and the class matching every character, runs
    to the last closing brace after it.  No closing brace after the leftmost
    opening brace means none after any later one, hence no match. *)
Fixpoint matchBraces (s : string) : option string :=
  match s with
  | EmptyString => None
  | String a t =>
      if Ascii.eqb a "{"
      then match uptoLast "}" t with
           | Some r => Some (String a r)
           | None => None
           end
      else matchBraces t
  end.

(** Test data holding double quotes is written with apostrophes. *)
Fixpoint quoted (s : string) : string :=
  match s with
  | EmptyString => EmptyString
  | String c t => String (if Ascii.eqb c "'" then DQUOTE else c) (quoted t)
  end.

Definition decimal (n : N) : string := NilZero.string_of_uint (N.to_uint n).

End JsString.

(** ** JavaScript values and JSON.parse *)

Module Json.
Import JsString.

(** A number as its JSON literal denotes it: (-1)^negative * mantissa * 10^exponent.
    No arithmetic is done on numbers by the services; only their truthiness
    is observed. *)
Record JsNumber := mkNumber { negative : bool; mantissa : N; exponent : Z }.

Inductive JsVal :=
| JUndefined
| JNull
| JBool (b : bool)
| JNum (n : JsNumber)
| JStr (s : string)
| JArr (items : list JsVal)
| JObj (fields : list (string * JsVal)).

(** The double nearest to the literal is zero when the mantissa is zero or
    the magnitude is at most 2^-1075, half of the least subnormal. *)
Definition numberIsZero (n : JsNumber) : bool :=
  (mantissa n =? 0)%N ||
  ((exponent n <? 0)%Z && (Z.of_N (mantissa n) * 2 ^ 1075 <=? 10 ^ (- exponent n))%Z).

(** ToBoolean. *)
Definition truthy (v : JsVal) : bool :=
  match v with
  | JUndefined | JNull => false
  | JBool b => b
  | JNum n => negb (numberIsZero n)
  | JStr s => negb (isEmpty s)
  | JArr _ | JObj _ => true
  end.

(** [a || b]. *)
Definition orElse (a b : JsVal) : JsVal := if truthy a then a else b.

(** [typeof v === 'object' && v !== null]. *)
Definition isObject (v : JsVal) : bool :=
  match v with JArr _ | JObj _ => true | _ => false end.

(** The last binding of a key wins, as in an object built by JSON.parse. *)
Fixpoint lookup (k : string) (fields : list (string * JsVal)) : option JsVal :=
  match fields with
  | [] => None
  | (k', v) :: r =>
      match lookup k r with
      | Some w => Some w
      | None => if String.eqb k k' then Some v else None
      end
  end.

(** [v.k] for a [v] that is neither null nor undefined, and a name [k] among
    those the services read (success, error, text, generated_text, output,
    department, ...): none of them is a property of a string, number,
    boolean or array, so only objects answer. *)
Definition prop (k : string) (v : JsVal) : JsVal :=
  match v with
  | JObj fields => match lookup k fields with Some w => w | None => JUndefined end
  | _ => JUndefined
  end.

Definition isNullish (v : JsVal) : bool :=
  match v with JUndefined | JNull => true | _ => false end.

(** *** JSON.parse *)

Definition isJsonWs (c : ascii) : bool :=
  Ascii.eqb c " " || Ascii.eqb c TAB || Ascii.eqb c LF || Ascii.eqb c CR.

Fixpoint skipWs (s : string) : string :=
  match s with
  | EmptyString => EmptyString
  | String c t => if isJsonWs c then skipWs t else s
  end.

Definition isDigit (c : ascii) : bool := inRange 48 57 c.

Definition hexValue (c : ascii) : option N :=
  if inRange 48 57 c then Some (code c - 48)%N
  else if inRange 97 102 c then Some (code c - 87)%N
  else if inRange 65 70 c then Some (code c - 55)%N
  else None.

Definition hex4 (a b c d : ascii) : option N :=
  match hexValue a, hexValue b, hexValue c, hexValue d with
  | Some x, Some y, Some z, Some w => Some (((x * 16 + y) * 16 + z) * 16 + w)%N
  | _, _, _, _ => None
  end.

(** The character an escape letter stands for. *)
Definition escapeChar (e : ascii) : option ascii :=
  if Ascii.eqb e DQUOTE then Some DQUOTE
  else if Ascii.eqb e BACKSLASH then Some BACKSLASH
  else if Ascii.eqb e "/" then Some "/"%char
  else if Ascii.eqb e "b" then Some "008"%char
  else if Ascii.eqb e "f" then Some "012"%char
  else if Ascii.eqb e "n" then Some LF
  else if Ascii.eqb e "r" then Some CR
  else if Ascii.eqb e "t" then Some TAB
  else None.

(** The characters of a string literal, read after its opening quote, and
    the text after its closing quote.  A \u escape above U+00FF denotes a
    code unit outside the alphabet of this development and is not accepted. *)
Fixpoint parseChars (s : string) : option (string * string) :=
  match s with
  | EmptyString => None
  | String c t =>
      if Ascii.eqb c DQUOTE then Some (EmptyString, t)
      else if Ascii.eqb c BACKSLASH then
        match t with
        | EmptyString => None
        | String e t1 =>
            if Ascii.eqb e "u" then
              match t1 with
              | String h1 (String h2 (String h3 (String h4 t2))) =>
                  match hex4 h1 h2 h3 h4 with
                  | Some n =>
                      if (n <? 256)%N then
                        match parseChars t2 with
                        | Some (str, rest) => Some (String (ascii_of_N n) str, rest)
                        | None => None
                        end
                      else None
                  | None => None
                  end
              | _ => None
              end
            else
              match escapeChar e with
              | Some x =>
                  match parseChars t1 with
                  | Some (str, rest) => Some (String x str, rest)
                  | None => None
                  end
              | None => None
              end
        end
      else if (code c <? 32)%N then None
      else
        match parseChars t with
        | Some (str, rest) => Some (String c str, rest)
        | None => None
        end
  end.

Fixpoint takeDigits (s : string) : string * string :=
  match s with
  | EmptyString => (EmptyString, EmptyString)
  | String c t =>
      if isDigit c then let (ds, r) := takeDigits t in (String c ds, r)
      else (EmptyString, s)
  end.

Fixpoint digitsValue (acc : N) (ds : string) : N :=
  match ds with
  | EmptyString => acc
  | String c t => digitsValue (acc * 10 + (code c - 48))%N t
  end.

(** int: a single 0, or a digit 1-9 followed by digits. *)
Definition parseInt (s : string) : option (string * string) :=
  match s with
  | EmptyString => None
  | String c t =>
      if Ascii.eqb c "0" then Some (String c EmptyString, t)
      else if isDigit c then Some (takeDigits s)
      else None
  end.

(** frac: nothing, or a point followed by at least one digit. *)
Definition parseFrac (s : string) : option (string * string) :=
  match s with
  | String c t =>
      if Ascii.eqb c "." then
        let (ds, r) := takeDigits t in
        if isEmpty ds then None else Some (ds, r)
      else Some (EmptyString, s)
  | EmptyString => Some (EmptyString, s)
  end.

(** exp: nothing, or e/E, an optional sign and at least one digit. *)
Definition parseExp (s : string) : option (Z * string) :=
  match s with
  | String c t =>
      if Ascii.eqb c "e" || Ascii.eqb c "E" then
        let '(minus, t1) :=
          match t with
          | String sg t' =>
              if Ascii.eqb sg "-" then (true, t')
              else if Ascii.eqb sg "+" then (false, t')
              else (false, t)
          | EmptyString => (false, t)
          end in
        let (ds, r) := takeDigits t1 in
        if isEmpty ds then None
        else let e := Z.of_N (digitsValue 0 ds) in
             Some (if minus then (- e)%Z else e, r)
      else Some (0%Z, s)
  | EmptyString => Some (0%Z, s)
  end.

Definition parseNumber (s : string) : option (JsNumber * string) :=
  let '(neg, s1) :=
    match s with
    | String c t => if Ascii.eqb c "-" then (true, t) else (false, s)
    | EmptyString => (false, s)
    end in
  match parseInt s1 with
  | None => None
  | Some (ints, r1) =>
      match parseFrac r1 with
      | None => None
      | Some (fracs, r2) =>
          match parseExp r2 with
          | None => None
          | Some (e, r3) =>
              Some (mkNumber neg (digitsValue 0 (ints ++ fracs))
                             (e - Z.of_nat (String.length fracs)), r3)
          end
      end
  end.

(** [s] without its prefix [p]. *)
Fixpoint stripPrefix (p s : string) : option string :=
  match p, s with
  | EmptyString, _ => Some s
  | String a p', String b s' => if Ascii.eqb a b then stripPrefix p' s' else None
  | String _ _, EmptyString => None
  end.

Inductive Parsed (A : Type) :=
| Ok (a : A) (rest : string)
| SyntaxError
| OutOfFuel.
Arguments Ok {A} a rest.
Arguments SyntaxError {A}.
Arguments OutOfFuel {A}.

Definition parseLiteral (s : string) : Parsed JsVal :=
  match stripPrefix "true" s with
  | Some r => Ok (JBool true) r
  | None =>
      match stripPrefix "false" s with
      | Some r => Ok (JBool false) r
      | None =>
          match stripPrefix "null" s with
          | Some r => Ok JNull r
          | None => SyntaxError
          end
      end
  end.

(** Recursive descent.  A value opens at most one list of members or
    elements per character, so fuel above twice the length of the text is
    never used up ([parse_fuel] below). *)
Fixpoint parseValue (fuel : nat) (s : string) : Parsed JsVal :=
  match fuel with
  | O => OutOfFuel
  | S f =>
      match skipWs s with
      | EmptyString => SyntaxError
      | String c r =>
          if Ascii.eqb c "{" then
            match skipWs r with
            | EmptyString => SyntaxError
            | String c1 r1 =>
                if Ascii.eqb c1 "}" then Ok (JObj []) r1
                else match parseMembers f r with
                     | Ok fields rest => Ok (JObj fields) rest
                     | SyntaxError => SyntaxError
                     | OutOfFuel => OutOfFuel
                     end
            end
          else if Ascii.eqb c "[" then
            match skipWs r with
            | EmptyString => SyntaxError
            | String c1 r1 =>
                if Ascii.eqb c1 "]" then Ok (JArr []) r1
                else match parseElements f r with
                     | Ok items rest => Ok (JArr items) rest
                     | SyntaxError => SyntaxError
                     | OutOfFuel => OutOfFuel
                     end
            end
          else if Ascii.eqb c DQUOTE then
            match parseChars r with
            | Some (str, rest) => Ok (JStr str) rest
            | None => SyntaxError
            end
          else if Ascii.eqb c "-" || isDigit c then
            match parseNumber (String c r) with
            | Some (n, rest) => Ok (JNum n) rest
            | None => SyntaxError
            end
          else parseLiteral (String c r)
      end
  end
with parseMembers (fuel : nat) (s : string) : Parsed (list (string * JsVal)) :=
  match fuel with
  | O => OutOfFuel
  | S f =>
      match skipWs s with
      | EmptyString => SyntaxError
      | String c r =>
          if Ascii.eqb c DQUOTE then
            match parseChars r with
            | None => SyntaxError
            | Some (key, r1) =>
                match skipWs r1 with
                | EmptyString => SyntaxError
                | String c1 r2 =>
                    if Ascii.eqb c1 ":" then
                      match parseValue f r2 with
                      | SyntaxError => SyntaxError
                      | OutOfFuel => OutOfFuel
                      | Ok v r3 =>
                          match skipWs r3 with
                          | EmptyString => SyntaxError
                          | String c3 r4 =>
                              if Ascii.eqb c3 "," then
                                match parseMembers f r4 with
                                | Ok more rest => Ok ((key, v) :: more) rest
                                | SyntaxError => SyntaxError
                                | OutOfFuel => OutOfFuel
                                end
                              else if Ascii.eqb c3 "}" then Ok [(key, v)] r4
                              else SyntaxError
                          end
                      end
                    else SyntaxError
                end
            end
          else SyntaxError
      end
  end
with parseElements (fuel : nat) (s : string) : Parsed (list JsVal) :=
  match fuel with
  | O => OutOfFuel
  | S f =>
      match parseValue f s with
      | SyntaxError => SyntaxError
      | OutOfFuel => OutOfFuel
      | Ok v r1 =>
          match skipWs r1 with
          | EmptyString => SyntaxError
          | String c r2 =>
              if Ascii.eqb c "," then
                match parseElements f r2 with
                | Ok more rest => Ok (v :: more) rest
                | SyntaxError => SyntaxError
                | OutOfFuel => OutOfFuel
                end
              else if Ascii.eqb c "]" then Ok [v] r2
              else SyntaxError
          end
      end
  end.

(** [JSON.parse(text)]: [None] when it throws a SyntaxError. *)
Definition JSON_parse (text : string) : option JsVal :=
  match parseValue (S (2 * String.length text)) text with
  | Ok v rest => if isEmpty (skipWs rest) then Some v else None
  | _ => None
  end.

End Json.

(** ** Completions, thrown values and fetch *)

Module Runtime.
Import JsString Json.

(** An instance of Error: [e.name] and [e.message]. *)
Record ErrorObject := mkError { name : string; message : string }.

(** What a [throw] or a rejected promise carries. *)
Inductive Thrown :=
| IsError (e : ErrorObject)
| NotAnError (v : JsVal).

(** The outcome of running a block: it returns or it throws. *)
Inductive Completion (E A : Type) :=
| Normal (a : A)
| Throw (e : E).
Arguments Normal {E A} a.
Arguments Throw {E A} e.

Definition bind {E A B} (c : Completion E A) (k : A -> Completion E B) : Completion E B :=
  match c with
  | Normal a => k a
  | Throw e => Throw e
  end.

(** [try { body } catch (e) { handler e }]. *)
Definition tryCatch {E E' A} (body : Completion E A) (handler : E -> Completion E' A)
  : Completion E' A :=
  match body with
  | Normal a => Normal a
  | Throw e => handler e
  end.

Definition newError (msg : string) : ErrorObject := mkError "Error" msg.

(** The messages of the errors the engine raises are those of V8; nothing
    proved below depends on their wording. *)
Definition typeError (msg : string) : ErrorObject := mkError "TypeError" msg.
Definition syntaxError : ErrorObject := mkError "SyntaxError" "Unexpected token in JSON".

(** Error.prototype.toString, as a template literal applies it. *)
Definition errorToString (e : ErrorObject) : string :=
  if isEmpty (name e) then message e
  else if isEmpty (message e) then name e
  else name e ++ ": " ++ message e.

(** [v.k], which throws when [v] is null or undefined. *)
Definition get (k : string) (v : JsVal) : Completion ErrorObject JsVal :=
  match v with
  | JNull => Throw (typeError ("Cannot read properties of null (reading '" ++ k ++ "')"))
  | JUndefined =>
      Throw (typeError ("Cannot read properties of undefined (reading '" ++ k ++ "')"))
  | _ => Normal (prop k v)
  end.

Definition Blob := string.

Inductive Body :=
| NoBody
| JsonBody (v : JsVal)                (* body: JSON.stringify(v) *)
| FormBody (field : string) (blob : Blob) (filename : option string).

(** The url, method and body of a fetch call; the Content-Type header the
    JSON calls add is fixed and left out. *)
Record Request := mkRequest { url : string; method : string; body : Body }.

(** fetch rejects, or resolves to a response with a status and a body text. *)
Inductive FetchOutcome :=
| Rejected (e : Thrown)
| Responded (status : N) (text : string).

Definition Network := Request -> FetchOutcome.

(** [response.ok]. *)
Definition ok (status : N) : bool := (200 <=? status)%N && (status <=? 299)%N.

(** [await response.json()]. *)
Definition responseJson (text : string) : Completion Thrown JsVal :=
  match JSON_parse text with
  | Some v => Normal v
  | None => Throw (IsError syntaxError)
  end.

(** [import.meta.env]. *)
Record Env := mkEnv {
  VITE_LOCAL_WHISPER_URL : option string;
  VITE_LOCAL_GRIEVANCE_URL : option string
}.

(** [setting || fallback] for a setting that is a string or undefined. *)
Definition orDefault (setting : option string) (fallback : string) : string :=
  match setting with
  | Some s => if isEmpty s then fallback else s
  | None => fallback
  end.

End Runtime.

(** ** src/services/llm-models.ts *)

Module LlmModels.
Import JsString Json Runtime.

Definition INSTRUCTION : string := quoted
"You are a citizen grievance assistant for Mumbai.

Read the following complaint written in Hinglish (short conversational or ASR-style text) and extract structured grievance details.

Return ONLY a single JSON object (no extra text) with the following fields:

- department: one of ['roads_and_traffic', 'water_supply', 'solid_waste_management'], selected according to the grievance described in the complaint.
- location: the area or locality mentioned in the complaint (use an empty string '' if no explicit location is present).
- severity: one of ['low', 'medium', 'high', 'critical'], chosen based on the urgency or seriousness of the grievance expressed.
- description: a complete and factual English sentence describing the grievance clearly (should mention issue, location, and impact if available).
- summary: a concise, admin-friendly summary in English highlighting the main issue for quick review.

Rules:
- Return ONLY the JSON object and nothing else.
- Keep all values as strings.
- Use the exact labels provided for department and severity.
- If no location is found, set 'location': ''.
- Ensure the description and summary are coherent, factual, and consistent with the complaint.".

Inductive LLMModel := llama | mistral | qwen.

Record LLMOutput := mkOutput {
  department : string;
  location : string;
  severity : string;
  description : string;
  summary : string
}.

Definition LOCAL_MODEL_URL (env : Env) : string :=
  orDefault (VITE_LOCAL_GRIEVANCE_URL env) "http://localhost:5002".

Definition MODEL_ENDPOINTS (m : LLMModel) : string :=
  match m with
  | llama => "llama"
  | mistral => "mistral"
  | qwen => "qwen"
  end.

Definition MODEL_NAMES (m : LLMModel) : string :=
  match m with
  | llama => "Llama 3.2 (Fast)"
  | mistral => "Mistral 7B (Balanced)"
  | qwen => "Qwen 2.5 (Accurate)"
  end.

Definition setDepartment (d : string) (o : LLMOutput) : LLMOutput :=
  mkOutput d (location o) (severity o) (description o) (summary o).
Definition setLocation (l : string) (o : LLMOutput) : LLMOutput :=
  mkOutput (department o) l (severity o) (description o) (summary o).
Definition setSeverity (s : string) (o : LLMOutput) : LLMOutput :=
  mkOutput (department o) (location o) s (description o) (summary o).
Definition setDescription (d : string) (o : LLMOutput) : LLMOutput :=
  mkOutput (department o) (location o) (severity o) d (summary o).
Definition setSummary (s : string) (o : LLMOutput) : LLMOutput :=
  mkOutput (department o) (location o) (severity o) (description o) s.

(** The object literal the parser starts from (lines 57-63). *)
Definition initialOutput : LLMOutput :=
  mkOutput "roads_and_traffic" "" "medium" "" "".

(** [text.split('\n').map(line => line.trim()).filter(line => line)]. *)
Definition nonEmptyLines (text : string) : list string :=
  filter (fun line => negb (isEmpty line)) (map trim (split LF text)).

Definition SEVERITIES : list string := ["low"; "medium"; "high"; "critical"].

(** The department branch of the loop body (lines 75-82). *)
Definition mapDepartment (value : string) (output : LLMOutput) : LLMOutput :=
  let dept := toLowerCase value in
  if includes "road" dept || includes "traffic" dept then
    setDepartment "roads_and_traffic" output
  else if includes "water" dept then
    setDepartment "water_supply" output
  else if includes "waste" dept || includes "garbage" dept then
    setDepartment "solid_waste_management" output
  else output.

(** The severity branch of the loop body (lines 84-87). *)
Definition mapSeverity (value : string) (output : LLMOutput) : LLMOutput :=
  let sev := toLowerCase value in
  if existsb (String.eqb sev) SEVERITIES then setSeverity sev output else output.

(** The chain of tests on the key (lines 73-94). *)
Definition assignField (lowerKey value : string) (output : LLMOutput) : LLMOutput :=
  if includes "department" lowerKey then mapDepartment value output
  else if includes "severity" lowerKey then mapSeverity value output
  else if includes "location" lowerKey then setLocation value output
  else if includes "description" lowerKey then setDescription value output
  else if includes "summary" lowerKey then setSummary value output
  else output.

(** One turn of the loop over the lines (lines 66-94); [split] gives at least
    one part, so the key is always there. *)
Definition processLine (output : LLMOutput) (line : string) : LLMOutput :=
  match split ":" line with
  | [] => output
  | key :: valueParts =>
      let value := trim (join ":" valueParts) in
      if isEmpty value then output
      else assignField (trim (toLowerCase key)) value output
  end.

(** The candidate the loop leaves (lines 55-95). *)
Definition parseLines (text : string) : LLMOutput :=
  fold_left processLine (nonEmptyLines text) initialOutput.

(** The two fallbacks after the loop (lines 98-104). *)
Definition fillMissing (output : LLMOutput) : LLMOutput :=
  let output1 :=
    if isEmpty (description output) then
      setDescription
        (if isEmpty (summary output) then "No description provided" else summary output)
        output
    else output in
  if isEmpty (summary output1) then
    setSummary
      (let head := substring0 80 (description output1) in
       if isEmpty head then "No summary provided" else head)
      output1
  else output1.

Definition parsePlainTextOutput (text : string) : LLMOutput :=
  fillMissing (parseLines text).

(** The record as the JavaScript object it is. *)
Definition toObject (o : LLMOutput) : JsVal :=
  JObj [("department", JStr (department o));
        ("location", JStr (location o));
        ("severity", JStr (severity o));
        ("description", JStr (description o));
        ("summary", JStr (summary o))].

(** [parsePlainTextOutput(generatedText)] on whatever value the variable
    holds: a value that is not a string has no [split]. *)
Definition plainTextOf (generatedText : JsVal) : Completion ErrorObject JsVal :=
  match generatedText with
  | JStr text => Normal (toObject (parsePlainTextOutput text))
  | _ => Throw (typeError "text.split is not a function")
  end.

(** The inner try block (lines 164-178). *)
Definition extractOutput (generatedText : JsVal) : Completion ErrorObject JsVal :=
  if isObject generatedText then Normal generatedText
  else
    match generatedText with
    | JStr text =>
        match matchBraces text with
        | Some jsonMatch =>
            match JSON_parse jsonMatch with
            | Some v => Normal v
            | None => Throw syntaxError
            end
        | None => plainTextOf generatedText
        end
    | _ => Throw (typeError "generatedText.match is not a function")
    end.

(** What callFineTunedLLM throws: a value passed through, or [new Error(v)]
    for a value [v] of the response that is not a string, whose message is
    String(v). *)
Inductive LlmThrown :=
| Raised (e : Thrown)
| RaisedErrorOf (v : JsVal).

Definition throwNewError {A} (v : JsVal) : Completion LlmThrown A :=
  match v with
  | JStr s => Throw (Raised (IsError (newError s)))
  | _ => Throw (RaisedErrorOf v)
  end.

Definition raise {A} (c : Completion ErrorObject A) : Completion LlmThrown A :=
  tryCatch c (fun e => Throw (Raised (IsError e))).

(** The inner try with its catch (lines 163-187). *)
Definition parseGenerated (generatedText : JsVal) : Completion LlmThrown JsVal :=
  tryCatch (extractOutput generatedText) (fun parseError =>
    tryCatch (plainTextOf generatedText) (fun _ =>
      Throw (Raised (IsError
        (newError ("Failed to parse LLM output: " ++ errorToString parseError)))))).

Definition INVALID_STRUCTURE : string :=
  "Invalid LLM output structure - missing required fields".

(** The check of the required fields (lines 190-196). *)
Definition validateOutput (parsedOutput : JsVal) : Completion LlmThrown JsVal :=
  if negb (truthy (prop "department" parsedOutput))
     || negb (truthy (prop "severity" parsedOutput))
     || negb (truthy (prop "description" parsedOutput))
     || negb (truthy (prop "summary" parsedOutput))
  then Throw (Raised (IsError (newError INVALID_STRUCTURE)))
  else Normal parsedOutput.

(** What follows [await response.json()] (lines 146-196). *)
Definition handleResult (result : JsVal) : Completion LlmThrown JsVal :=
  bind (raise (get "model_used" result)) (fun _ =>
  let success := prop "success" result in
  if negb (truthy success) then
    throwNewError (orElse (prop "error" result) (JStr "Model processing failed"))
  else
    let generatedText :=
      orElse (prop "generated_text" result) (orElse (prop "output" result) (JStr "")) in
    bind (parseGenerated generatedText) validateOutput).

Definition categorizeRequest (env : Env) (userInput : JsVal) (model : LLMModel) : Request :=
  mkRequest (LOCAL_MODEL_URL env ++ "/categorize") "POST"
    (JsonBody (JObj [("text", userInput);
                     ("model", JStr (MODEL_ENDPOINTS model));
                     ("instruction", JStr INSTRUCTION)])).

(** The outer catch logs and rethrows, so the function throws what its body
    throws. *)
Definition callFineTunedLLM (env : Env) (net : Network)
    (userInput : JsVal) (model : LLMModel) : Completion LlmThrown JsVal :=
  match net (categorizeRequest env userInput model) with
  | Rejected e => Throw (Raised e)
  | Responded status text =>
      if negb (ok status) then
        Throw (Raised (IsError (newError ("Local model server error: " ++ text))))
      else
        match responseJson text with
        | Throw e => Throw (Raised e)
        | Normal result => handleResult result
        end
  end.

End LlmModels.

(** ** src/services/whisper-local.ts *)

Module WhisperLocal.
Import JsString Json Runtime.

Definition LOCAL_WHISPER_URL (env : Env) : string :=
  orDefault (VITE_LOCAL_WHISPER_URL env) "http://localhost:5001".

(** The try block every client function of the two service files shares:
    fetch, throw on a response that is not ok, decode the body. *)
Definition fetchJson (net : Network) (req : Request) : Completion Thrown JsVal :=
  match net req with
  | Rejected e => Throw e
  | Responded status text =>
      if negb (ok status) then
        Throw (IsError (newError ("Server error: " ++ decimal status)))
      else responseJson text
  end.

(** [error instanceof Error ? error.message : 'Unknown error']. *)
Definition errorMessage (error : Thrown) : string :=
  match error with
  | IsError e => message e
  | NotAnError _ => "Unknown error"
  end.

Definition healthRequest (env : Env) : Request :=
  mkRequest (LOCAL_WHISPER_URL env ++ "/health") "GET" NoBody.

(** Lines 17-26: the body is decoded whatever the status. *)
Definition checkLocalWhisperHealth (env : Env) (net : Network) : Completion Thrown JsVal :=
  tryCatch
    (match net (healthRequest env) with
     | Rejected e => Throw e
     | Responded _ text =>
         bind (responseJson text) (fun data =>
           match get "status" data with
           | Throw e => Throw (IsError e)
           | Normal status =>
               match status with
               | JStr "healthy" => Normal (prop "model_loaded" data)
               | _ => Normal (JBool false)
               end
           end)
     end)
    (fun _ => Normal (JBool false)).

Definition transcribeRequest (env : Env) (audioBlob : Blob) : Request :=
  mkRequest (LOCAL_WHISPER_URL env ++ "/transcribe") "POST"
    (FormBody "audio" audioBlob (Some "audio.webm")).

Definition transcriptionFailure (error : Thrown) : JsVal :=
  JObj [("text", JStr ""); ("success", JBool false);
        ("error", JStr (errorMessage error))].

(** Lines 31-55. *)
Definition transcribeAudioLocal (env : Env) (net : Network) (audioBlob : Blob)
  : Completion Thrown JsVal :=
  tryCatch (fetchJson net (transcribeRequest env audioBlob))
           (fun error => Normal (transcriptionFailure error)).

Definition translateRequest (env : Env) (text : JsVal) : Request :=
  mkRequest (LOCAL_WHISPER_URL env ++ "/translate") "POST"
    (JsonBody (JObj [("text", text)])).

Definition translationFailure (text : JsVal) (error : Thrown) : JsVal :=
  JObj [("translated_text", JStr ""); ("original_text", text);
        ("success", JBool false); ("error", JStr (errorMessage error))].

(** Lines 184-209. *)
Definition translateToEnglishLocal (env : Env) (net : Network) (text : JsVal)
  : Completion Thrown JsVal :=
  tryCatch (fetchJson net (translateRequest env text))
           (fun error => Normal (translationFailure text error)).

End WhisperLocal.

(** ** src/services/grievance-local.ts *)

Module GrievanceLocal.
Import JsString Json Runtime LlmModels.

Definition LOCAL_GRIEVANCE_URL (env : Env) : string :=
  orDefault (VITE_LOCAL_GRIEVANCE_URL env) "http://localhost:5002".

(** The parameters [model] and [fastMode] have the defaults 'mistral' and
    true when left out. *)
Definition categorizeLocalRequest (env : Env) (text : JsVal)
    (model : option LLMModel) (fastMode : option bool) : Request :=
  mkRequest (LOCAL_GRIEVANCE_URL env ++ "/categorize") "POST"
    (JsonBody (JObj [("text", text);
                     ("model", JStr (MODEL_ENDPOINTS
                                       (match model with Some m => m | None => mistral end)));
                     ("fast_mode", JBool (match fastMode with Some b => b | None => true end))])).

Definition categorizationFailure (error : Thrown) : JsVal :=
  JObj [("text", JStr ""); ("generated_text", JStr ""); ("success", JBool false);
        ("error", JStr (WhisperLocal.errorMessage error))].

(** Lines 33-62. *)
Definition categorizeGrievanceLocal (env : Env) (net : Network) (text : JsVal)
    (model : option LLMModel) (fastMode : option bool) : Completion Thrown JsVal :=
  tryCatch (WhisperLocal.fetchJson net (categorizeLocalRequest env text model fastMode))
           (fun error => Normal (categorizationFailure error)).

End GrievanceLocal.

(** ** src/components/ComplaintForm.tsx: handleTranscribe *)

Module ComplaintForm.
Import JsString Json Runtime LlmModels WhisperLocal.

Record FormData := mkFormData {
  description : JsVal;
  location : JsVal;
  severity : JsVal;
  department_id : JsVal;
  summary : JsVal;
  llm_model_used : JsVal
}.

(** A toast by its title and whether its variant is destructive. *)
Record Toast := mkToast { title : string; destructive : bool }.

(** The state of the component that the handler reads or writes. *)
Record State := mkState {
  formData : FormData;
  isTranscribing : bool;
  useAIAutofill : bool;
  transcription : JsVal;
  toasts : list Toast
}.

(** The useState initial values (lines 42-58). *)
Definition initialState : State :=
  mkState (mkFormData (JStr "") (JStr "") (JStr "low") (JStr "") (JStr "") (JStr ""))
          false true (JStr "") [].

Definition setIsTranscribing (b : bool) (st : State) : State :=
  mkState (formData st) b (useAIAutofill st) (transcription st) (toasts st).

Definition setTranscription (t : JsVal) (st : State) : State :=
  mkState (formData st) (isTranscribing st) (useAIAutofill st) t (toasts st).

(** [setFormData(prev => ({ ...prev, description: d }))]. *)
Definition setFormDescription (d : JsVal) (st : State) : State :=
  mkState (mkFormData d (location (formData st)) (severity (formData st))
                      (department_id (formData st)) (summary (formData st))
                      (llm_model_used (formData st)))
          (isTranscribing st) (useAIAutofill st) (transcription st) (toasts st).

Definition toast (t : Toast) (st : State) : State :=
  mkState (formData st) (isTranscribing st) (useAIAutofill st) (transcription st)
          (toasts st ++ [t]).

(** Lines 206-212: the text the rest of the handler works with. *)
Definition chooseFinalText (transcribedText translationResult : JsVal)
  : Completion ErrorObject JsVal :=
  bind (get "success" translationResult) (fun success =>
    if truthy success then
      let translated := prop "translated_text" translationResult in
      Normal (if truthy translated then translated else transcribedText)
    else Normal transcribedText).

Section Handler.
Variable env : Env.
Variable net : Network.
(** [processWithAI] runs its own try/catch/finally and never throws; it is
    taken as the state change it makes when called on a text. *)
Variable processWithAI : JsVal -> State -> State.

(** The try block (lines 176-228); a throw carries the state reached. *)
Definition transcribeBody (audio : Blob) (st : State) : Completion State State :=
  match checkLocalWhisperHealth env net with
  | Throw _ => Throw st
  | Normal isLocalAvailable =>
      if negb (truthy isLocalAvailable) then
        Normal (toast (mkToast "Local Whisper Server Required" true) st)
      else
        match transcribeAudioLocal env net audio with
        | Throw _ => Throw st
        | Normal result =>
            match get "success" result with
            | Throw _ => Throw st
            | Normal success =>
                if negb (truthy success) then Throw st
                else
                  let transcribedText := prop "text" result in
                  let st1 := setTranscription transcribedText st in
                  match translateToEnglishLocal env net transcribedText with
                  | Throw _ => Throw st1
                  | Normal translationResult =>
                      match chooseFinalText transcribedText translationResult with
                      | Throw _ => Throw st1
                      | Normal finalText =>
                          let st2 := setFormDescription finalText st1 in
                          let st3 := toast (mkToast "Transcription complete" false) st2 in
                          Normal (if useAIAutofill st then processWithAI finalText st3
                                  else st3)
                      end
                  end
            end
        end
  end.

(** Lines 173-239. *)
Definition handleTranscribe (audio : Blob) (st : State) : State :=
  let after :=
    match transcribeBody audio (setIsTranscribing true st) with
    | Normal st' => st'
    | Throw st' => toast (mkToast "Transcription failed" true) st'
    end in
  setIsTranscribing false after.

End Handler.

End ComplaintForm.

(** ** The record the specification promises, and sample traffic *)

Module Spec.
Import JsString Json Runtime LlmModels.

Definition DEPARTMENTS : list string :=
  ["roads_and_traffic"; "water_supply"; "solid_waste_management"].

Definition inList (s : string) (l : list string) : bool := existsb (String.eqb s) l.

(** The five fields are present as strings, [department] and [severity] each
    one of its enumerated values. *)
Definition isGrievanceRecord (v : JsVal) : bool :=
  match prop "department" v, prop "location" v, prop "severity" v,
        prop "description" v, prop "summary" v with
  | JStr d, JStr _, JStr s, JStr _, JStr _ => inList d DEPARTMENTS && inList s SEVERITIES
  | _, _, _, _, _ => false
  end.

(** Both enumerated fields of the candidate hold enum members. *)
Definition enumsValid (o : LLMOutput) : Prop :=
  inList (department o) DEPARTMENTS = true /\ inList (severity o) SEVERITIES = true.

(** The department rule of the line parser, as a first-match-wins table over
    the lower-cased value; [None] when no keyword occurs. *)
Definition departmentKeyword (dept : string) : option string :=
  if includes "road" dept || includes "traffic" dept then Some "roads_and_traffic"
  else if includes "water" dept then Some "water_supply"
  else if includes "waste" dept || includes "garbage" dept then Some "solid_waste_management"
  else None.

(** A character that is not the line feed. *)
Definition notLF (c : ascii) : bool := negb (Ascii.eqb c LF).

Fixpoint allChars (p : ascii -> bool) (s : string) : bool :=
  match s with
  | EmptyString => true
  | String c t => p c && allChars p t
  end.

(** The ways a call to a service fails before a decoded body is at hand: the
    fetch rejects, the status is not 2xx, or the body is not JSON. *)
Definition fetchFails (outcome : FetchOutcome) : bool :=
  match outcome with
  | Rejected _ => true
  | Responded status text =>
      negb (ok status) || match JSON_parse text with Some _ => false | None => true end
  end.

(** A translation that failed: the call failed, or the decoded body is an
    object whose [success] is falsy or whose [translated_text] is falsy. *)
Definition translationFailed (outcome : FetchOutcome) : bool :=
  fetchFails outcome ||
  match outcome with
  | Responded _ text =>
      match JSON_parse text with
      | Some (JObj fields) =>
          negb (truthy (prop "success" (JObj fields)))
          || negb (truthy (prop "translated_text" (JObj fields)))
      | _ => false
      end
  | Rejected _ => false
  end.

(** The four fields the check of callFineTunedLLM looks at are all truthy. *)
Definition requiredFieldsPresent (v : JsVal) : bool :=
  truthy (prop "department" v) && truthy (prop "severity" v)
  && truthy (prop "description" v) && truthy (prop "summary" v).

End Spec.

Module Samples.
Import JsString Json Runtime LlmModels.

Definition env0 : Env := mkEnv None None.

(** A server that answers every request with status 200 and the given body. *)
Definition respond (body : string) : Network := fun _ => Responded 200 body.

(** A server that is down. *)
Definition refuse : Network :=
  fun _ => Rejected (IsError (typeError "Failed to fetch")).

(** The body of a successful categorization whose [generated_text] is the
    given JavaScript string literal (without its quotes). *)
Definition reply (literal : string) : string :=
  quoted "{'success':true,'model_used':'llama','generated_text':'" ++ literal ++ quoted "'}".

(** The fast keyword matcher's block of section 8 of the specification. *)
Definition scenarioText : string :=
"Department: water
Severity: low
Location:
Summary: Naala band ho gaya hai, gutter se paani ghar ke andar aa raha hai".

Definition scenarioSentence : string :=
  "Naala band ho gaya hai, gutter se paani ghar ke andar aa raha hai".

(** A JSON object whose department and severity are no enum members and
    which has no location. *)
Definition leakLiteral : string :=
  quoted "{\'department\':\'electricity\',\'severity\':\'urgent\',\'description\':\'No power in the lane since morning\',\'summary\':\'Power cut\'}".

(** A valid JSON object followed by a line of prose that holds a brace. *)
Definition objectThenProse : string :=
  quoted "{'department':'water_supply','location':'Juhu','severity':'high','description':'Pipe burst at Juhu','summary':'Pipe burst'}
Department: garbage {bin}".

(** The same object with prose around it that holds no brace. *)
Definition objectInProse : string :=
  quoted "Severity: low. Here is the record: {'department':'water_supply','location':'Juhu','severity':'high','description':'Pipe burst at Juhu','summary':'Pipe burst'}
Department: garbage".

(** The members of the valid object, and the object as a string literal of
    the reply. *)
Definition validInner : string :=
  quoted "'department':'water_supply','location':'Juhu','severity':'high','description':'Pipe burst at Juhu','summary':'Pipe burst'".

Definition validLiteral : string :=
  quoted "{\'department\':\'water_supply\',\'location\':\'Juhu\',\'severity\':\'high\',\'description\':\'Pipe burst at Juhu\',\'summary\':\'Pipe burst\'}".

Definition validFields : list (string * JsVal) :=
  [("department", JStr "water_supply"); ("location", JStr "Juhu");
   ("severity", JStr "high"); ("description", JStr "Pipe burst at Juhu");
   ("summary", JStr "Pipe burst")].

Definition embeddedObject : string :=
  quoted "{'department':'water_supply','location':'Juhu','severity':'high','description':'Pipe burst at Juhu','summary':'Pipe burst'}".

(** A JSON object with a description and no summary. *)
Definition noSummaryLiteral : string :=
  quoted "{\'department\':\'water_supply\',\'location\':\'\',\'severity\':\'low\',\'description\':\'Low water pressure\'}".

(** A server whose translation endpoint reports failure and whose other
    endpoints answer with the given transcription. *)
Definition translationDown (heard : string) (req : Request) : FetchOutcome :=
  if includes "/health" (url req) then
    Responded 200 (quoted "{'status':'healthy','model_loaded':true}")
  else if includes "/transcribe" (url req) then
    Responded 200 (quoted "{'text':'" ++ heard ++ quoted "','success':true}")
  else if includes "/translate" (url req) then
    Responded 200 (quoted "{'translated_text':'','original_text':'" ++ heard
                   ++ quoted "','success':false,'error':'model not loaded'}")
  else Responded 404 "Not Found".

End Samples.

(** ** src/services/llm-models.ts: the rule-based fallback *)

Module LlmFallback.
Import JsString Json Runtime LlmModels.

(** The classes [A-Z] and [a-z]. *)
Definition isUpper (c : ascii) : bool := inRange 65 90 c.
Definition isLower (c : ascii) : bool := inRange 97 122 c.

(** The location patterns capture a capitalized word, a capital [A-Z] and
    one or more [a-z], followed by any number of groups of white space and a
    further capitalized word.  Where the matcher stands once the first
    capital is read: in the lower-case run of a word; in the white
    space after a word ([Gap], with the white space read so far); or after
    the capital of a next word, which counts only when a lower-case letter
    follows ([Cap], with the white space and the capital). *)
Inductive Scan :=
| InWord
| Gap (pending : string)
| Cap (pending : string).

(** The text the greedy matcher takes from [s] in state [st].  What is
    pending is given back when the next word does not come: a shorter run of
    white space cannot be followed by a capital either. *)
Fixpoint scanWords (st : Scan) (s : string) : string :=
  match s with
  | EmptyString => EmptyString
  | String c t =>
      match st with
      | InWord =>
          if isLower c then String c (scanWords InWord t)
          else if isWhiteSpace c then scanWords (Gap (String c EmptyString)) t
          else EmptyString
      | Gap pending =>
          if isWhiteSpace c then scanWords (Gap (pending ++ String c EmptyString)) t
          else if isUpper c then scanWords (Cap (pending ++ String c EmptyString)) t
          else EmptyString
      | Cap pending =>
          if isLower c then pending ++ String c (scanWords InWord t)
          else EmptyString
      end
  end.

(** A match of the capitalized words at the start of [s]. *)
Definition capitalizedWords (s : string) : option string :=
  match s with
  | String c (String l t) =>
      if isUpper c && isLower l then Some (String c (String l (scanWords InWord t)))
      else None
  | _ => None
  end.

(** [input.match(pattern)[1]] for the pattern made of the literal [kw] and
    the capturing group of capitalized words: the capture of the leftmost
    match, [None] when match gives null. *)
Fixpoint matchAfter (kw : string) (input : string) : option string :=
  match (match stripPrefix kw input with
         | Some rest => capitalizedWords rest
         | None => None
         end) with
  | Some captured => Some captured
  | None =>
      match input with
      | EmptyString => None
      | String _ t => matchAfter kw t
      end
  end.

(** The literal heads of the three location patterns (lines 264-268). *)
Definition locationPatterns : list string := ["in "; "at "; "near "].

(** The loop over the patterns (lines 270-277). *)
Fixpoint firstLocation (patterns : list string) (input : string) : string :=
  match patterns with
  | [] => EmptyString
  | kw :: rest =>
      match matchAfter kw input with
      | Some captured => captured
      | None => firstLocation rest input
      end
  end.

(** Lines 242-286. *)
Definition simpleCategorization (input : string) : LLMOutput :=
  let lowerInput := toLowerCase input in
  let department :=
    if includes "water" lowerInput || includes "paani" lowerInput
       || includes "pipeline" lowerInput
    then "water_supply"
    else if includes "garbage" lowerInput || includes "kachra" lowerInput
            || includes "waste" lowerInput
    then "solid_waste_management"
    else "roads_and_traffic" in
  let severity :=
    if includes "urgent" lowerInput || includes "emergency" lowerInput
       || includes "critical" lowerInput
    then "critical"
    else if includes "serious" lowerInput || includes "high" lowerInput then "high"
    else if includes "minor" lowerInput || includes "low" lowerInput then "low"
    else "medium" in
  mkOutput department (firstLocation locationPatterns input) severity input
           (substring0 100 input ++ (if Nat.ltb 100 (String.length input) then "..." else "")).

(** Lines 224-237: whatever the call throws, the rules answer. *)
Definition categorizeWithFallback (env : Env) (net : Network) (userInput : string)
    (model : LLMModel) : Completion LlmThrown JsVal :=
  tryCatch (callFineTunedLLM env net (JStr userInput) model)
           (fun _ => Normal (toObject (simpleCategorization userInput))).

End LlmFallback.

(** ** src/services/whisper-local.ts: the other clients *)

Module WhisperClients.
Import JsString Json Runtime WhisperLocal.

Definition number (n : N) : JsVal := JNum (mkNumber false n 0).

(** [maxLength] is the number passed or undefined. *)
Definition summarizeRequest (env : Env) (text maxLength : JsVal) : Request :=
  mkRequest (LOCAL_WHISPER_URL env ++ "/summarize") "POST"
    (JsonBody (JObj [("text", text);
                     ("max_length", orElse maxLength (number 130));
                     ("min_length", number 30)])).

Definition summaryFailure (error : Thrown) : JsVal :=
  JObj [("summary_text", JStr ""); ("success", JBool false);
        ("error", JStr (errorMessage error))].

(** Lines 66-94. *)
Definition summarizeTextLocal (env : Env) (net : Network) (text maxLength : JsVal)
  : Completion Thrown JsVal :=
  tryCatch (fetchJson net (summarizeRequest env text maxLength))
           (fun error => Normal (summaryFailure error)).

Definition transcribeFileRequest (env : Env) (file : Blob) : Request :=
  mkRequest (LOCAL_WHISPER_URL env ++ "/transcribe") "POST" (FormBody "audio" file None).

(** Lines 99-123. *)
Definition transcribeAudioFileLocal (env : Env) (net : Network) (file : Blob)
  : Completion Thrown JsVal :=
  tryCatch (fetchJson net (transcribeFileRequest env file))
           (fun error => Normal (transcriptionFailure error)).

(** What [readAsDataURL] does with a blob: it loads a data URL, or fails. *)
Definition FileReader := Blob -> option string.

(** The event a failing reader hands to [reject]: not an Error. *)
Definition readerErrorEvent : JsVal := JObj [("type", JStr "error")].

(** Lines 160-172: the part between the first and the second comma of the
    data URL, undefined when the URL has no comma. *)
Definition blobToBase64 (reader : FileReader) (blob : Blob) : Completion Thrown JsVal :=
  match reader blob with
  | Some base64String =>
      Normal (match nth_error (split "," base64String) 1 with
              | Some base64Data => JStr base64Data
              | None => JUndefined
              end)
  | None => Throw (NotAnError readerErrorEvent)
  end.

Definition base64Request (env : Env) (base64Audio : JsVal) : Request :=
  mkRequest (LOCAL_WHISPER_URL env ++ "/transcribe-base64") "POST"
    (JsonBody (JObj [("audio", base64Audio)])).

(** Lines 128-155. *)
Definition transcribeAudioBase64Local (env : Env) (net : Network) (reader : FileReader)
    (audioBlob : Blob) : Completion Thrown JsVal :=
  tryCatch (bind (blobToBase64 reader audioBlob)
                 (fun base64Audio => fetchJson net (base64Request env base64Audio)))
           (fun error => Normal (transcriptionFailure error)).

End WhisperClients.

(** ** src/services/grievance-local.ts: the other clients *)

Module GrievanceClients.
Import JsString Json Runtime LlmModels GrievanceLocal.

Definition grievanceHealthRequest (env : Env) : Request :=
  mkRequest (LOCAL_GRIEVANCE_URL env ++ "/health") "GET" NoBody.

(** Lines 19-28: a strict comparison, so a boolean. *)
Definition checkLocalGrievanceHealth (env : Env) (net : Network) : Completion Thrown JsVal :=
  tryCatch
    (match net (grievanceHealthRequest env) with
     | Rejected e => Throw e
     | Responded _ text =>
         bind (responseJson text) (fun data =>
           match get "status" data with
           | Throw e => Throw (IsError e)
           | Normal status =>
               Normal (JBool (match status with
                              | JStr s => String.eqb s "healthy"
                              | _ => false
                              end))
           end)
     end)
    (fun _ => Normal (JBool false)).

(** The body of the two calls that send a text and a model, 'mistral' when
    the model is left out. *)
Definition textModelRequest (env : Env) (path : string) (text : JsVal)
    (model : option LLMModel) : Request :=
  mkRequest (LOCAL_GRIEVANCE_URL env ++ path) "POST"
    (JsonBody (JObj [("text", text);
                     ("model", JStr (MODEL_ENDPOINTS
                                       (match model with Some m => m | None => mistral end)))])).

(** Lines 67-95. *)
Definition generateGrievanceResponseLocal (env : Env) (net : Network) (text : JsVal)
    (model : option LLMModel) : Completion Thrown JsVal :=
  tryCatch (WhisperLocal.fetchJson net (textModelRequest env "/generate-response" text model))
           (fun error => Normal (categorizationFailure error)).

(** Lines 100-128. *)
Definition processGrievanceLocal (env : Env) (net : Network) (text : JsVal)
    (model : option LLMModel) : Completion Thrown JsVal :=
  tryCatch (WhisperLocal.fetchJson net (textModelRequest env "/process" text model))
           (fun error => Normal (categorizationFailure error)).

End GrievanceClients.

(** ** src/components/ComplaintForm.tsx: processWithAI *)

Module AutoFill.
Import JsString Json Runtime LlmModels.

(** A row of the departments query (lines 24-28). *)
Record Department := mkDepartment { id : string; name : string; description : string }.

(** The value of the model selector. *)
Definition modelValue (m : LLMModel) : string :=
  match m with
  | llama => "llama"
  | mistral => "mistral"
  | qwen => "qwen"
  end.

(** The component state processWithAI works on: what handleTranscribe sees,
    the departments loaded, the model selected and the busy flag. *)
Record AIState := mkAIState {
  component : ComplaintForm.State;
  departments : list Department;
  selectedLLMModel : LLMModel;
  isProcessingAI : bool
}.

Definition setIsProcessingAI (b : bool) (st : AIState) : AIState :=
  mkAIState (component st) (departments st) (selectedLLMModel st) b.

Definition aiToast (t : ComplaintForm.Toast) (st : AIState) : AIState :=
  mkAIState (ComplaintForm.toast t (component st)) (departments st)
            (selectedLLMModel st) (isProcessingAI st).

Definition setFormData (f : ComplaintForm.FormData) (st : AIState) : AIState :=
  mkAIState (ComplaintForm.mkState f (ComplaintForm.isTranscribing (component st))
                                   (ComplaintForm.useAIAutofill (component st))
                                   (ComplaintForm.transcription (component st))
                                   (ComplaintForm.toasts (component st)))
            (departments st) (selectedLLMModel st) (isProcessingAI st).

(** The own properties of the object literal deptMapping (lines 255-259). *)
Definition deptMapping (key : string) : option string :=
  if String.eqb key "roads_and_traffic" then Some "roads"
  else if String.eqb key "water_supply" then Some "water"
  else if String.eqb key "solid_waste_management" then Some "waste"
  else None.

(** [s.replace(/_/g, ' ')]. *)
Fixpoint replaceUnderscores (s : string) : string :=
  match s with
  | EmptyString => EmptyString
  | String c t => String (if Ascii.eqb c "_" then " "%char else c) (replaceUnderscores t)
  end.

Section Platform.
(** String(v) for a value that is not a string. *)
Variable stringOf : JsVal -> string.
(** String(Object.prototype[k]) when [k] names a property of
    Object.prototype (all of them truthy), [None] for every other name. *)
Variable objectPrototypeText : string -> option string.
Variable env : Env.
Variable net : Network.

(** The property key a value is turned into. *)
Definition propertyKey (v : JsVal) : string :=
  match v with
  | JStr s => s
  | _ => stringOf v
  end.

(** [deptMapping[department] || department], as the string [includes]
    searches for: an own property first, then an inherited one, else the
    department itself. *)
Definition keywordText (department : JsVal) : string :=
  match deptMapping (propertyKey department) with
  | Some keyword => keyword
  | None =>
      match objectPrototypeText (propertyKey department) with
      | Some text => text
      | None => propertyKey department
      end
  end.

(** The callback of [departments.find] (lines 262-265): the second test is
    made only when the first fails, and throws on a department that is not a
    string. *)
Definition nameMatches (department : JsVal) (d : Department) : Completion ErrorObject bool :=
  let lowerName := toLowerCase (name d) in
  if includes (keywordText department) lowerName then Normal true
  else
    match department with
    | JStr s => Normal (includes (replaceUnderscores s) lowerName)
    | _ => Throw (typeError "llmOutput.department.replace is not a function")
    end.

Fixpoint findDepartment (department : JsVal) (ds : list Department)
  : Completion ErrorObject (option Department) :=
  match ds with
  | [] => Normal None
  | d :: rest =>
      bind (nameMatches department d) (fun found =>
        if found then Normal (Some d) else findDepartment department rest)
  end.

(** The update of the form (lines 268-276). *)
Definition fillForm (llmOutput : JsVal) (matchedDept : option Department)
    (model : LLMModel) (prev : ComplaintForm.FormData) : ComplaintForm.FormData :=
  ComplaintForm.mkFormData
    (prop "description" llmOutput)
    (orElse (prop "location" llmOutput) (ComplaintForm.location prev))
    (prop "severity" llmOutput)
    (orElse (match matchedDept with Some d => JStr (id d) | None => JUndefined end)
            (ComplaintForm.department_id prev))
    (prop "summary" llmOutput)
    (JStr (modelValue model)).

Definition aiFailed (st : AIState) : AIState :=
  aiToast (ComplaintForm.mkToast "AI Processing Failed" true) st.

(** Lines 241-292. *)
Definition processWithAI (grievanceText : JsVal) (st : AIState) : AIState :=
  let started :=
    aiToast (ComplaintForm.mkToast "AI Processing" false) (setIsProcessingAI true st) in
  let after :=
    match callFineTunedLLM env net grievanceText (selectedLLMModel st) with
    | Throw _ => aiFailed started
    | Normal llmOutput =>
        match get "department" llmOutput with
        | Throw _ => aiFailed started
        | Normal department =>
            match findDepartment department (departments st) with
            | Throw _ => aiFailed started
            | Normal matchedDept =>
                aiToast (ComplaintForm.mkToast "AI Auto-fill Complete" false)
                  (setFormData
                     (fillForm llmOutput matchedDept (selectedLLMModel st)
                               (ComplaintForm.formData (component started)))
                     started)
            end
        end
    end in
  setIsProcessingAI false after.

(** processWithAI as handleTranscribe calls it, the departments and the
    model being those of the component. *)
Definition autoFill (ds : list Department) (model : LLMModel)
    (grievanceText : JsVal) (st : ComplaintForm.State) : ComplaintForm.State :=
  component (processWithAI grievanceText (mkAIState st ds model false)).

End Platform.

End AutoFill.

Module SpecExtra.
Import JsString Json Runtime LlmModels Spec.







(** The first department whose lower-cased name holds the keyword. *)
Definition firstNamed (keyword : string) (ds : list AutoFill.Department)
  : option AutoFill.Department :=
  find (fun d => includes keyword (toLowerCase (AutoFill.name d))) ds.

(** What a state of the matcher holds back. *)
Definition pendingOf (st : LlmFallback.Scan) : string :=
  match st with
  | LlmFallback.InWord => EmptyString
  | LlmFallback.Gap pending | LlmFallback.Cap pending => pending
  end.

(** [needle] occurs in [hay]. *)
Definition occursIn (needle hay : string) : Prop :=
  exists before after, hay = before ++ needle ++ after.

End SpecExtra.

Module SamplesExtra.
Import JsString Json Runtime LlmModels.

(** A server that hears [heard], translates it to [english] and answers the
    categorization with the given status and body. *)
Definition pipeline (heard english : string) (status : N) (categorized : string)
    (req : Request) : FetchOutcome :=
  if includes "/health" (url req) then
    Responded 200 (quoted "{'status':'healthy','model_loaded':true}")
  else if includes "/transcribe" (url req) then
    Responded 200 (quoted "{'text':'" ++ heard ++ quoted "','success':true}")
  else if includes "/translate" (url req) then
    Responded 200 (quoted "{'translated_text':'" ++ english
                   ++ quoted "','original_text':'" ++ heard ++ quoted "','success':true}")
  else if includes "/categorize" (url req) then Responded status categorized
  else Responded 404 "Not Found".

Definition cityDepartments : list AutoFill.Department :=
  [AutoFill.mkDepartment "d-1" "Roads and Traffic" "Potholes and signals";
   AutoFill.mkDepartment "d-2" "Water Supply" "Pipes and tanks";
   AutoFill.mkDepartment "d-3" "Solid Waste Management" "Garbage collection"].

(** String(v) of a platform that is never asked: the samples hold string
    departments only. *)
Definition noText (v : JsVal) : string := EmptyString.

(** Object.prototype seen through the names the samples use: none of them
    is one of its properties. *)
Definition noInherited (k : string) : option string := None.

End SamplesExtra.

(** * Properties *)

Import JsString Json Runtime LlmModels Spec Samples.

(** ** Strings *)

Lemma isEmpty_true (s : string) : isEmpty s = true <-> s = EmptyString.
Proof. destruct s; simpl; split; congruence. Qed.

Lemma isEmpty_false (s : string) : isEmpty s = false <-> s <> EmptyString.
Proof. destruct s; simpl; split; congruence. Qed.

Lemma app_empty_r (s : string) : s ++ EmptyString = s.
Proof. induction s as [|c s IH]; simpl; [reflexivity | now rewrite IH]. Qed.

Lemma app_assoc_str (a b c : string) : (a ++ b) ++ c = a ++ (b ++ c).
Proof. induction a as [|x a IH]; simpl; [reflexivity | now rewrite IH]. Qed.

Lemma split_nonempty (sep : ascii) (s : string) : split sep s <> [].
Proof.
  destruct s as [|c t]; simpl; [discriminate|].
  destruct (Ascii.eqb c sep); [discriminate|].
  destruct (split sep t); discriminate.
Qed.

Lemma split_without_sep (sep : ascii) (s : string) :
  allChars (fun c => negb (Ascii.eqb c sep)) s = true -> split sep s = [s].
Proof.
  induction s as [|c t IH]; simpl; intros H; [reflexivity|].
  apply andb_prop in H as [Hc Ht].
  apply negb_true_iff in Hc. rewrite Hc, (IH Ht). reflexivity.
Qed.

Lemma join_split (sep : ascii) (s : string) :
  join (String sep EmptyString) (split sep s) = s.
Proof.
  induction s as [|c t IH]; simpl; [reflexivity|].
  destruct (Ascii.eqb_spec c sep) as [->|Hne].
  - pose proof (split_nonempty sep t) as Hn.
    destruct (split sep t) as [|h r] eqn:E; [congruence|].
    change (join (String sep EmptyString) (EmptyString :: h :: r))
      with (String sep (join (String sep EmptyString) (h :: r))).
    now rewrite IH.
  - pose proof (split_nonempty sep t) as Hn.
    destruct (split sep t) as [|h r] eqn:E; [congruence|].
    destruct r as [|h' r'].
    + simpl in *. now rewrite IH.
    + change (join (String sep EmptyString) (String c h :: h' :: r'))
        with (String c (h ++ String sep (join (String sep EmptyString) (h' :: r')))).
      change (join (String sep EmptyString) (h :: h' :: r'))
        with (h ++ String sep (join (String sep EmptyString) (h' :: r'))) in IH.
      now rewrite IH.
Qed.

Lemma trimEnd_cons (c : ascii) (s : string) :
  isWhiteSpace c = false -> trimEnd (String c s) = String c (trimEnd s).
Proof. intros H. simpl. rewrite H. now destruct (trimEnd s). Qed.

Lemma trimEnd_idem (s : string) : trimEnd (trimEnd s) = trimEnd s.
Proof.
  induction s as [|c t IH]; [reflexivity|].
  simpl. destruct (trimEnd t) as [|a u] eqn:E.
  - destruct (isWhiteSpace c) eqn:W; [reflexivity|].
    simpl. now rewrite W.
  - change (trimEnd (String c (String a u)))
      with (match trimEnd (String a u) with
            | EmptyString => if isWhiteSpace c then EmptyString else String c EmptyString
            | t' => String c t'
            end).
    now rewrite IH.
Qed.

Lemma trimStart_trimEnd (s : string) : trimStart (trimEnd s) = trimEnd (trimStart s).
Proof.
  induction s as [|c t IH]; [reflexivity|].
  destruct (isWhiteSpace c) eqn:W.
  - change (trimStart (String c t)) with (if isWhiteSpace c then trimStart t else String c t).
    rewrite W, <- IH. simpl.
    destruct (trimEnd t) as [|a u]; [now rewrite W|].
    change (trimStart (String c (String a u)))
      with (if isWhiteSpace c then trimStart (String a u) else String c (String a u)).
    now rewrite W.
  - change (trimStart (String c t)) with (if isWhiteSpace c then trimStart t else String c t).
    rewrite W, (trimEnd_cons c t W). simpl. now rewrite W.
Qed.

Lemma trim_trimEnd (s : string) : trim (trimEnd s) = trim s.
Proof. unfold trim. now rewrite trimStart_trimEnd, trimEnd_idem. Qed.

Lemma uptoLast_absent (c : ascii) (s : string) :
  allChars (fun a => negb (Ascii.eqb a c)) s = true -> uptoLast c s = None.
Proof.
  induction s as [|a t IH]; simpl; intros H; [reflexivity|].
  apply andb_prop in H as [Ha Ht]. apply negb_true_iff in Ha.
  now rewrite (IH Ht), Ha.
Qed.

Lemma uptoLast_last (c : ascii) (mid post : string) :
  allChars (fun a => negb (Ascii.eqb a c)) post = true ->
  uptoLast c (mid ++ String c post) = Some (mid ++ String c EmptyString).
Proof.
  intros H. induction mid as [|a m IH]; simpl.
  - now rewrite (uptoLast_absent c post H), Ascii.eqb_refl.
  - now rewrite IH.
Qed.

Lemma uptoLast_sound (c : ascii) (s r : string) :
  uptoLast c s = Some r ->
  exists mid post, s = mid ++ String c post /\ r = mid ++ String c EmptyString
                   /\ allChars (fun a => negb (Ascii.eqb a c)) post = true.
Proof.
  revert r. induction s as [|a t IH]; simpl; intros r H; [discriminate|].
  destruct (uptoLast c t) as [r'|] eqn:E.
  - injection H as <-. destruct (IH r' eq_refl) as (mid & post & -> & -> & Hp).
    now exists (String a mid), post.
  - destruct (Ascii.eqb_spec a c) as [->|Hne]; [|discriminate].
    injection H as <-. exists EmptyString, t. repeat split.
    clear IH. induction t as [|b u IHu]; [reflexivity|].
    simpl in E. destruct (uptoLast c u); [discriminate|].
    destruct (Ascii.eqb b c) eqn:B; [discriminate|]. simpl. rewrite B. now apply IHu.
Qed.

(** The match runs from the leftmost opening brace to the last closing one. *)
Lemma matchBraces_span (pre mid post : string) :
  allChars (fun a => negb (Ascii.eqb a "{")) pre = true ->
  allChars (fun a => negb (Ascii.eqb a "}")) post = true ->
  matchBraces (pre ++ String "{" (mid ++ String "}" post))
  = Some (String "{" (mid ++ String "}" EmptyString)).
Proof.
  intros Hpre Hpost. induction pre as [|a p IH]; simpl.
  - now rewrite (uptoLast_last "}" mid post Hpost).
  - simpl in Hpre. apply andb_prop in Hpre as [Ha Hp]. apply negb_true_iff in Ha.
    rewrite Ha. now apply IH.
Qed.

Lemma matchBraces_sound (s span : string) :
  matchBraces s = Some span ->
  exists pre mid post,
    s = pre ++ String "{" (mid ++ String "}" post)
    /\ span = String "{" (mid ++ String "}" EmptyString)
    /\ allChars (fun a => negb (Ascii.eqb a "{")) pre = true
    /\ allChars (fun a => negb (Ascii.eqb a "}")) post = true.
Proof.
  induction s as [|a t IH]; simpl; intros H; [discriminate|].
  destruct (Ascii.eqb_spec a "{"%char) as [->|Hne].
  - destruct (uptoLast "}" t) as [r|] eqn:E; [|discriminate].
    injection H as <-. destruct (uptoLast_sound _ _ _ E) as (mid & post & -> & -> & Hp).
    now exists EmptyString, mid, post.
  - destruct (IH H) as (pre & mid & post & -> & -> & Hpre & Hpost).
    exists (String a pre), mid, post. repeat split; try assumption.
    simpl. rewrite Hpre. apply Ascii.eqb_neq in Hne. now rewrite Hne.
Qed.

Lemma split_label (sep : ascii) (label rest : string) :
  allChars (fun c => negb (Ascii.eqb c sep)) label = true ->
  split sep (label ++ String sep rest) = label :: split sep rest.
Proof.
  induction label as [|c l IH]; simpl; intros H.
  - now rewrite Ascii.eqb_refl.
  - apply andb_prop in H as [Hc Hl]. apply negb_true_iff in Hc.
    now rewrite Hc, (IH Hl).
Qed.

Lemma allChars_app (p : ascii -> bool) (a b : string) :
  allChars p (a ++ b) = allChars p a && allChars p b.
Proof. induction a as [|c a IH]; simpl; [reflexivity | now rewrite IH, andb_assoc]. Qed.

Lemma trimEnd_label (label rest : string) :
  allChars (fun c => negb (isWhiteSpace c)) label = true ->
  trimEnd (label ++ String ":" rest) = label ++ String ":" (trimEnd rest).
Proof.
  induction label as [|c l IH]; cbn [append]; intros H.
  - now apply trimEnd_cons.
  - simpl in H. apply andb_prop in H as [Hc Hl]. apply negb_true_iff in Hc.
    now rewrite (trimEnd_cons _ _ Hc), (IH Hl).
Qed.

(** ** The line parser *)

(** A key without colon: the value is what follows the first colon, trimmed. *)
Lemma processLine_labelled (output : LLMOutput) (label rest : string) :
  allChars (fun c => negb (Ascii.eqb c ":")) label = true ->
  processLine output (label ++ String ":" rest)
  = if isEmpty (trim rest) then output
    else assignField (trim (toLowerCase label)) (trim rest) output.
Proof.
  intros H. unfold processLine. now rewrite (split_label _ _ _ H), join_split.
Qed.

Lemma nonEmptyLines_single (s : string) :
  allChars notLF s = true ->
  nonEmptyLines s = if isEmpty (trim s) then [] else [trim s].
Proof.
  intros H. unfold nonEmptyLines. rewrite (split_without_sep LF s H). simpl.
  now destruct (isEmpty (trim s)).
Qed.

(** The candidate a text of one labelled line leaves. *)
Lemma parseLines_labelled (c : ascii) (label rest : string) :
  isWhiteSpace c = false ->
  allChars (fun a => negb (isWhiteSpace a) && negb (Ascii.eqb a ":")) (String c label) = true ->
  allChars notLF rest = true ->
  parseLines (String c label ++ String ":" rest)
  = if isEmpty (trim rest) then initialOutput
    else assignField (trim (toLowerCase (String c label))) (trim rest) initialOutput.
Proof.
  intros Hc Hlabel Hrest.
  assert (Hws : allChars (fun a => negb (isWhiteSpace a)) (String c label) = true).
  { clear - Hlabel. induction (String c label) as [|a l IH]; [reflexivity|].
    simpl in *. apply andb_prop in Hlabel as [Ha Hl]. apply andb_prop in Ha as [Ha _].
    now rewrite Ha, (IH Hl). }
  assert (Hcolon : allChars (fun a => negb (Ascii.eqb a ":")) (String c label) = true).
  { clear - Hlabel. induction (String c label) as [|a l IH]; [reflexivity|].
    simpl in *. apply andb_prop in Hlabel as [Ha Hl]. apply andb_prop in Ha as [_ Ha].
    now rewrite Ha, (IH Hl). }
  assert (Hlf : allChars notLF (String c label ++ String ":" rest) = true).
  { rewrite allChars_app. apply andb_true_intro. split.
    - clear - Hws. induction (String c label) as [|a l IH]; [reflexivity|].
      simpl in *. apply andb_prop in Hws as [Ha Hl]. rewrite (IH Hl), andb_true_r.
      unfold notLF. destruct (Ascii.eqb_spec a LF) as [->|]; [discriminate Ha | reflexivity].
    - simpl. now rewrite Hrest. }
  unfold parseLines. rewrite (nonEmptyLines_single _ Hlf).
  assert (Htrim : trim (String c label ++ String ":" rest)
                  = String c label ++ String ":" (trimEnd rest)).
  { unfold trim. simpl trimStart. rewrite Hc. now apply (trimEnd_label (String c label)). }
  rewrite Htrim. simpl isEmpty. cbv iota. simpl fold_left.
  change (String c (label ++ String ":" (trimEnd rest)))
    with (String c label ++ String ":" (trimEnd rest)).
  now rewrite (processLine_labelled _ _ _ Hcolon), trim_trimEnd.
Qed.

Lemma fillMissing_department (o : LLMOutput) :
  department (fillMissing o) = department o.
Proof.
  unfold fillMissing.
  destruct (isEmpty (description o)); destruct (isEmpty (summary _)); reflexivity.
Qed.

Lemma fillMissing_severity (o : LLMOutput) :
  severity (fillMissing o) = severity o.
Proof.
  unfold fillMissing.
  destruct (isEmpty (description o)); destruct (isEmpty (summary _)); reflexivity.
Qed.

Lemma fillMissing_location (o : LLMOutput) :
  location (fillMissing o) = location o.
Proof.
  unfold fillMissing.
  destruct (isEmpty (description o)); destruct (isEmpty (summary _)); reflexivity.
Qed.

Lemma fold_left_invariant {A B} (P : A -> Prop) (f : A -> B -> A) (l : list B) (a : A) :
  (forall x b, P x -> P (f x b)) -> P a -> P (fold_left f l a).
Proof.
  intros Hf. revert a. induction l as [|b l IH]; simpl; intros a Ha; [assumption|].
  apply IH, Hf, Ha.
Qed.

Lemma mapDepartment_enums (value : string) (o : LLMOutput) :
  enumsValid o -> enumsValid (mapDepartment value o).
Proof.
  intros [Hd Hs]. unfold mapDepartment.
  destruct (includes "road" _ || includes "traffic" _); [now split|].
  destruct (includes "water" _); [now split|].
  destruct (includes "waste" _ || includes "garbage" _); now split.
Qed.

Lemma mapSeverity_enums (value : string) (o : LLMOutput) :
  enumsValid o -> enumsValid (mapSeverity value o).
Proof.
  intros [Hd Hs]. unfold mapSeverity.
  destruct (existsb _ SEVERITIES) eqn:E; now split.
Qed.

Lemma processLine_enums (o : LLMOutput) (line : string) :
  enumsValid o -> enumsValid (processLine o line).
Proof.
  intros H. unfold processLine.
  destruct (split ":" line) as [|key parts]; [assumption|].
  destruct (isEmpty _); [assumption|].
  unfold assignField.
  destruct (includes "department" _); [now apply mapDepartment_enums|].
  destruct (includes "severity" _); [now apply mapSeverity_enums|].
  destruct H as [Hd Hs].
  destruct (includes "location" _); [now split|].
  destruct (includes "description" _); [now split|].
  destruct (includes "summary" _); now split.
Qed.

Lemma parseLines_enums (text : string) : enumsValid (parseLines text).
Proof.
  unfold parseLines. apply fold_left_invariant.
  - intros x b. apply processLine_enums.
  - now split.
Qed.

Lemma fillMissing_description (o : LLMOutput) :
  isEmpty (description (fillMissing o)) = false.
Proof.
  unfold fillMissing.
  destruct (isEmpty (description o)) eqn:D.
  - destruct (isEmpty (summary o)) eqn:S; simpl; rewrite ?S; [reflexivity|].
    simpl. exact S.
  - destruct (isEmpty (summary o)) eqn:S; simpl; exact D.
Qed.

Lemma fillMissing_summary (o : LLMOutput) :
  isEmpty (summary (fillMissing o)) = false.
Proof.
  unfold fillMissing.
  set (o1 := if isEmpty (description o) then _ else o).
  destruct (isEmpty (summary o1)) eqn:S; [|exact S].
  simpl. destruct (isEmpty (substring0 80 (description o1))) eqn:H; [reflexivity | exact H].
Qed.

Lemma inList_nonempty (s : string) (l : list string) :
  inList s l = true -> forallb (fun x => negb (isEmpty x)) l = true -> isEmpty s = false.
Proof.
  unfold inList. induction l as [|x l IH]; simpl; intros H Hl; [discriminate|].
  apply andb_prop in Hl as [Hx Hl]. apply orb_prop in H as [H|H].
  - apply String.eqb_eq in H. subst x. now apply negb_true_iff in Hx.
  - now apply IH.
Qed.

Lemma toObject_fields (o : LLMOutput) :
  prop "department" (toObject o) = JStr (department o)
  /\ prop "location" (toObject o) = JStr (location o)
  /\ prop "severity" (toObject o) = JStr (severity o)
  /\ prop "description" (toObject o) = JStr (description o)
  /\ prop "summary" (toObject o) = JStr (summary o).
Proof. repeat split. Qed.

(** What the line parser returns always has its five fields, enum members in
    the two enumerated ones, and passes the check of required fields. *)
Lemma plainText_is_record (text : string) :
  isGrievanceRecord (toObject (parsePlainTextOutput text)) = true
  /\ validateOutput (toObject (parsePlainTextOutput text))
     = Normal (toObject (parsePlainTextOutput text)).
Proof.
  destruct (parseLines_enums text) as [Hd Hs].
  unfold parsePlainTextOutput.
  rewrite <- (fillMissing_department (parseLines text)) in Hd.
  rewrite <- (fillMissing_severity (parseLines text)) in Hs.
  pose proof (fillMissing_description (parseLines text)) as Hdesc.
  pose proof (fillMissing_summary (parseLines text)) as Hsum.
  set (o := fillMissing (parseLines text)) in *.
  destruct (toObject_fields o) as (Ed & El & Es & Edesc & Esum).
  split.
  - unfold isGrievanceRecord. rewrite Ed, El, Es, Edesc, Esum, Hd, Hs. reflexivity.
  - unfold validateOutput. rewrite Ed, Es, Edesc, Esum. unfold truthy.
    rewrite (inList_nonempty _ _ Hd eq_refl), (inList_nonempty _ _ Hs eq_refl), Hdesc, Hsum.
    reflexivity.
Qed.

(** ** The claims about the line parser *)

(** C9: the four-line block of the fast keyword matcher (no JSON in it) is
    normalized to water_supply / low / empty location, with the summary
    sentence as both summary and description: the Location line has an empty
    value and is skipped, and the empty description falls back to the summary. *)
Theorem scenario_block_normalized :
  parsePlainTextOutput scenarioText
  = mkOutput "water_supply" "" "low" scenarioSentence scenarioSentence
  /\ description (parseLines scenarioText) = EmptyString
  /\ summary (parseLines scenarioText) = scenarioSentence
  /\ location (parseLines scenarioText) = EmptyString
  /\ matchBraces scenarioText = None
  /\ bind (parseGenerated (JStr scenarioText)) validateOutput
     = Normal (toObject (mkOutput "water_supply" "" "low" scenarioSentence scenarioSentence)).
Proof. repeat split; vm_compute; reflexivity. Qed.

(** C1 (the code departs from it): on the JSON path the parsed object is
    returned as it is.  For a reply whose embedded object names the department
    electricity and the severity urgent and has no location, callFineTunedLLM
    returns that object: neither enumerated field holds an enum member and
    location is undefined.  The same holds when generated_text is the object
    itself instead of a text.  (Every record that comes from the lines does
    keep the invariant: [plainText_is_record].) *)
Theorem json_object_returned_unvalidated :
  callFineTunedLLM env0 (respond (reply leakLiteral)) (JStr "bijli nahi hai subah se") llama
  = Normal (JObj [("department", JStr "electricity");
                  ("severity", JStr "urgent");
                  ("description", JStr "No power in the lane since morning");
                  ("summary", JStr "Power cut")])
  /\ isGrievanceRecord
       (JObj [("department", JStr "electricity");
              ("severity", JStr "urgent");
              ("description", JStr "No power in the lane since morning");
              ("summary", JStr "Power cut")]) = false
  /\ prop "location"
       (JObj [("department", JStr "electricity");
              ("severity", JStr "urgent");
              ("description", JStr "No power in the lane since morning");
              ("summary", JStr "Power cut")]) = JUndefined
  /\ handleResult
       (JObj [("success", JBool true);
              ("generated_text",
               JObj [("department", JStr "electricity");
                     ("severity", JStr "urgent");
                     ("description", JStr "No power in the lane since morning");
                     ("summary", JStr "Power cut")])])
     = Normal (JObj [("department", JStr "electricity");
                     ("severity", JStr "urgent");
                     ("description", JStr "No power in the lane since morning");
                     ("summary", JStr "Power cut")]).
Proof. repeat split; vm_compute; reflexivity. Qed.

(** C2, as stated, fails: the raw value Low is lower-cased before the
    comparison and accepted as low, not defaulted to medium. *)
Lemma severity_Low_normalizes_to_low :
  severity (parsePlainTextOutput "Severity: Low") = "low"
  /\ callFineTunedLLM env0 (respond (reply "Severity: Low")) (JStr "thoda paani") llama
     = Normal (toObject (mkOutput "roads_and_traffic" "" "low"
                                  "No description provided" "No description provided"))
  /\ "low" <> "medium".
Proof. repeat split; try (vm_compute; reflexivity). discriminate. Qed.

(** C2, amended: in line-oriented parsing the raw severity value is trimmed
    and lower-cased, and accepted when the lower-cased value is one of low,
    medium, high, critical; otherwise the severity stays at the default
    medium (on a later severity line, at the value the earlier lines left).
    So Low gives low, urgent gives medium and critical gives critical. *)
Theorem severity_line_rule :
  (forall v : string,
      allChars notLF v = true ->
      severity (parsePlainTextOutput ("Severity:" ++ v))
      = if inList (toLowerCase (trim v)) SEVERITIES then toLowerCase (trim v) else "medium")
  /\ (forall (value : string) (output : LLMOutput),
        severity (mapSeverity value output)
        = if inList (toLowerCase value) SEVERITIES then toLowerCase value
          else severity output)
  /\ severity (parsePlainTextOutput "Severity: Low") = "low"
  /\ severity (parsePlainTextOutput "Severity: urgent") = "medium"
  /\ severity (parsePlainTextOutput "Severity: critical") = "critical".
Proof.
  split; [|split; [|repeat split; vm_compute; reflexivity]].
  2:{ intros value output. unfold mapSeverity, inList.
      destruct (existsb _ SEVERITIES); reflexivity. }
  intros v Hv. unfold parsePlainTextOutput. rewrite fillMissing_severity.
  change ("Severity:" ++ v) with (String "S" "everity" ++ String ":" v).
  rewrite (parseLines_labelled "S" "everity" v eq_refl eq_refl Hv).
  change (trim (toLowerCase "Severity")) with "severity".
  destruct (isEmpty (trim v)) eqn:E.
  - apply isEmpty_true in E. rewrite E. reflexivity.
  - change (assignField "severity" (trim v) initialOutput)
      with (mapSeverity (trim v) initialOutput).
    unfold mapSeverity, inList.
    destruct (existsb _ SEVERITIES); reflexivity.
Qed.

Lemma severity_line_rule_witness :
  severity (parsePlainTextOutput ("Severity:" ++ " High  ")) = "high".
Proof.
  rewrite (proj1 severity_line_rule " High  " eq_refl). reflexivity.
Defined.

(** C4, as stated, fails: a department value that contains water is mapped to
    roads_and_traffic when it also contains road, the first rule tried. *)
Lemma department_water_after_road :
  department (parsePlainTextOutput "Department: Road water logging") = "roads_and_traffic"
  /\ includes "water" (toLowerCase "Road water logging") = true
  /\ "roads_and_traffic" <> "water_supply".
Proof. repeat split; try (vm_compute; reflexivity). discriminate. Qed.

(** C4, amended: in line-oriented parsing the rules are tried in order on the
    trimmed, lower-cased value: road or traffic gives roads_and_traffic, else
    water gives water_supply, else waste or garbage gives
    solid_waste_management; a value with no keyword (or an empty one) leaves
    the department as it was, which is roads_and_traffic when no earlier line
    set it. *)
Theorem department_line_rule :
  (forall v : string,
      allChars notLF v = true ->
      department (parsePlainTextOutput ("Department:" ++ v))
      = match departmentKeyword (toLowerCase (trim v)) with
        | Some d => d
        | None => "roads_and_traffic"
        end)
  /\ (forall (value : string) (output : LLMOutput),
        department (mapDepartment value output)
        = match departmentKeyword (toLowerCase value) with
          | Some d => d
          | None => department output
          end).
Proof.
  assert (Hmap : forall value output,
             department (mapDepartment value output)
             = match departmentKeyword (toLowerCase value) with
               | Some d => d
               | None => department output
               end).
  { intros value output. unfold mapDepartment, departmentKeyword.
    destruct (includes "road" _ || includes "traffic" _); [reflexivity|].
    destruct (includes "water" _); [reflexivity|].
    destruct (includes "waste" _ || includes "garbage" _); reflexivity. }
  split; [|exact Hmap].
  intros v Hv. unfold parsePlainTextOutput. rewrite fillMissing_department.
  change ("Department:" ++ v) with (String "D" "epartment" ++ String ":" v).
  rewrite (parseLines_labelled "D" "epartment" v eq_refl eq_refl Hv).
  change (trim (toLowerCase "Department")) with "department".
  destruct (isEmpty (trim v)) eqn:E.
  - apply isEmpty_true in E. rewrite E. reflexivity.
  - change (assignField "department" (trim v) initialOutput)
      with (mapDepartment (trim v) initialOutput).
    rewrite Hmap. reflexivity.
Qed.

Lemma department_line_rule_witness :
  department (parsePlainTextOutput ("Department:" ++ " Garbage dump")) = "solid_waste_management".
Proof.
  rewrite (proj1 department_line_rule " Garbage dump" eq_refl). reflexivity.
Defined.

(** C3, as stated, fails: with description and summary both empty the
    description becomes a fixed placeholder, not the text that was sent to
    categorization. *)
Lemma description_placeholder_not_input :
  description (parseLines "Department: water") = EmptyString
  /\ summary (parseLines "Department: water") = EmptyString
  /\ callFineTunedLLM env0 (respond (reply "Department: water"))
                      (JStr "paani nahi aa raha hai") llama
     = Normal (toObject (mkOutput "water_supply" "" "medium"
                                  "No description provided" "No description provided"))
  /\ "No description provided" <> "paani nahi aa raha hai".
Proof. repeat split; try (vm_compute; reflexivity). discriminate. Qed.

(** C3, amended: in the fallback of the line parser a candidate with an empty
    description and a non-empty summary gets the summary as description; a
    candidate with both empty gets the fixed text No description provided; a
    non-empty description is kept. *)
Theorem description_fallback (candidate : LLMOutput) :
  (description candidate = EmptyString -> summary candidate <> EmptyString ->
   description (fillMissing candidate) = summary candidate)
  /\ (description candidate = EmptyString -> summary candidate = EmptyString ->
      description (fillMissing candidate) = "No description provided")
  /\ (description candidate <> EmptyString ->
      description (fillMissing candidate) = description candidate)
  /\ (forall text, parseLines text = candidate ->
                   parsePlainTextOutput text = fillMissing candidate).
Proof.
  repeat split.
  - destruct candidate as [d l s desc summ]. simpl. intros -> S.
    destruct summ; [congruence | reflexivity].
  - destruct candidate as [d l s desc summ]. simpl. intros -> ->. reflexivity.
  - destruct candidate as [d l s desc summ]. simpl. intros D.
    destruct desc; [congruence|]. unfold fillMissing. simpl.
    destruct (isEmpty summ); reflexivity.
  - intros text <-. reflexivity.
Qed.

Lemma description_fallback_witness :
  description (fillMissing (parseLines scenarioText)) = scenarioSentence.
Proof.
  rewrite (proj1 (description_fallback (parseLines scenarioText))).
  - reflexivity.
  - reflexivity.
  - discriminate.
Defined.

(** ** The claims about callFineTunedLLM *)

Lemma callFineTunedLLM_decoded (env : Env) (net : Network) (userInput : JsVal)
    (model : LLMModel) (status : N) (body : string) (result : JsVal) :
  net (categorizeRequest env userInput model) = Responded status body ->
  ok status = true ->
  JSON_parse body = Some result ->
  callFineTunedLLM env net userInput model = handleResult result.
Proof.
  intros Hnet Hok Hbody. unfold callFineTunedLLM, responseJson.
  now rewrite Hnet, Hok, Hbody.
Qed.

Lemma handleResult_text (result : JsVal) (text : string) :
  truthy (prop "success" result) = true ->
  prop "generated_text" result = JStr text ->
  text <> EmptyString ->
  handleResult result = bind (parseGenerated (JStr text)) validateOutput.
Proof.
  intros Hs Hg Ht. unfold handleResult.
  destruct result; try discriminate Hs.
  cbn [get raise tryCatch bind]. rewrite Hs, Hg. cbn [negb].
  unfold orElse at 1. cbn [truthy]. apply isEmpty_false in Ht. rewrite Ht. reflexivity.
Qed.

Lemma parseGenerated_text (text : string) :
  parseGenerated (JStr text)
  = match matchBraces text with
    | Some span =>
        match JSON_parse span with
        | Some v => Normal v
        | None => Normal (toObject (parsePlainTextOutput text))
        end
    | None => Normal (toObject (parsePlainTextOutput text))
    end.
Proof.
  unfold parseGenerated, extractOutput. cbn [isObject plainTextOf].
  destruct (matchBraces text) as [span|]; [|reflexivity].
  destruct (JSON_parse span); reflexivity.
Qed.

(** C5, as stated, fails: the text holds a valid JSON object and, after it, a
    line of prose with a brace in it.  The candidate runs to the last closing
    brace, does not parse, and the record is read from the lines: the
    department is that of the prose and the severity the default, not the
    values of the object. *)
Lemma prose_brace_defeats_object :
  objectThenProse = embeddedObject ++ String LF "Department: garbage {bin}"
  /\ JSON_parse embeddedObject
     = Some (JObj [("department", JStr "water_supply"); ("location", JStr "Juhu");
                   ("severity", JStr "high"); ("description", JStr "Pipe burst at Juhu");
                   ("summary", JStr "Pipe burst")])
  /\ matchBraces objectThenProse = Some (embeddedObject ++ String LF "Department: garbage {bin}")
  /\ parseGenerated (JStr objectThenProse)
     = Normal (toObject (mkOutput "solid_waste_management" "" "medium"
                                  "No description provided" "No description provided")).
Proof. repeat split; vm_compute; reflexivity. Qed.

(** C5, amended: the candidate the normalizer tries to parse is the span from
    the first opening brace of the text to the last closing brace after it.
    When that span parses, its value is used and everything outside it is
    ignored; the lines are parsed only when the text has no such span or the
    span does not parse. *)
Theorem json_span_precedence :
  (forall text : string,
      parseGenerated (JStr text)
      = match matchBraces text with
        | Some span =>
            match JSON_parse span with
            | Some v => Normal v
            | None => Normal (toObject (parsePlainTextOutput text))
            end
        | None => Normal (toObject (parsePlainTextOutput text))
        end)
  /\ (forall pre mid post : string,
        allChars (fun a => negb (Ascii.eqb a "{")) pre = true ->
        allChars (fun a => negb (Ascii.eqb a "}")) post = true ->
        matchBraces (pre ++ String "{" (mid ++ String "}" post))
        = Some (String "{" (mid ++ String "}" EmptyString)))
  /\ (forall text span : string,
        matchBraces text = Some span ->
        exists pre mid post,
          text = pre ++ String "{" (mid ++ String "}" post)
          /\ span = String "{" (mid ++ String "}" EmptyString)
          /\ allChars (fun a => negb (Ascii.eqb a "{")) pre = true
          /\ allChars (fun a => negb (Ascii.eqb a "}")) post = true).
Proof.
  split; [exact parseGenerated_text|].
  split; [exact matchBraces_span | exact matchBraces_sound].
Qed.

Lemma json_span_precedence_witness :
  parseGenerated (JStr objectInProse)
  = Normal (JObj [("department", JStr "water_supply"); ("location", JStr "Juhu");
                  ("severity", JStr "high"); ("description", JStr "Pipe burst at Juhu");
                  ("summary", JStr "Pipe burst")]).
Proof.
  rewrite (proj1 json_span_precedence objectInProse). vm_compute. reflexivity.
Defined.

(** C8: a reply whose generated text is exactly a JSON object (from its
    opening to its closing brace) with the five fields, department and
    severity enum members, description and summary non-empty, is returned by
    callFineTunedLLM as that object, every field unchanged.  The same holds
    with text around the object, as long as no opening brace comes before it
    and no closing brace after it. *)
Theorem valid_object_unchanged (env : Env) (net : Network) (userInput : JsVal)
    (model : LLMModel) (status : N) (body : string) (result : JsVal)
    (pre inner post : string) (fields : list (string * JsVal)) (d l s desc summ : string) :
  net (categorizeRequest env userInput model) = Responded status body ->
  ok status = true ->
  JSON_parse body = Some result ->
  truthy (prop "success" result) = true ->
  allChars (fun a => negb (Ascii.eqb a "{")) pre = true ->
  allChars (fun a => negb (Ascii.eqb a "}")) post = true ->
  prop "generated_text" result = JStr (pre ++ String "{" (inner ++ String "}" post)) ->
  JSON_parse (String "{" (inner ++ "}")) = Some (JObj fields) ->
  lookup "department" fields = Some (JStr d) -> inList d DEPARTMENTS = true ->
  lookup "location" fields = Some (JStr l) ->
  lookup "severity" fields = Some (JStr s) -> inList s SEVERITIES = true ->
  lookup "description" fields = Some (JStr desc) -> desc <> EmptyString ->
  lookup "summary" fields = Some (JStr summ) -> summ <> EmptyString ->
  callFineTunedLLM env net userInput model = Normal (JObj fields)
  /\ prop "department" (JObj fields) = JStr d
  /\ prop "location" (JObj fields) = JStr l
  /\ prop "severity" (JObj fields) = JStr s
  /\ prop "description" (JObj fields) = JStr desc
  /\ prop "summary" (JObj fields) = JStr summ.
Proof.
  intros Hnet Hok Hbody Hs Hpre Hpost Hg Hp Hd Hdv Hl Hsev Hsv Hdesc Hdne Hsum Hsne.
  split; [|cbn [prop]; rewrite Hd, Hl, Hsev, Hdesc, Hsum; repeat split].
  rewrite (callFineTunedLLM_decoded _ _ _ _ _ _ _ Hnet Hok Hbody).
  rewrite (handleResult_text _ _ Hs Hg).
  2:{ destruct pre; discriminate. }
  rewrite parseGenerated_text, (matchBraces_span pre inner post Hpre Hpost), Hp.
  cbn [bind]. unfold validateOutput. cbn [prop]. rewrite Hd, Hsev, Hdesc, Hsum. cbn [truthy].
  rewrite (inList_nonempty _ _ Hdv eq_refl), (inList_nonempty _ _ Hsv eq_refl).
  apply isEmpty_false in Hdne, Hsne. rewrite Hdne, Hsne. reflexivity.
Qed.

Lemma valid_object_unchanged_witness :
  callFineTunedLLM env0 (respond (reply validLiteral)) (JStr "pipe phat gaya Juhu mein") llama
  = Normal (JObj validFields).
Proof.
  apply (valid_object_unchanged env0 (respond (reply validLiteral))
           (JStr "pipe phat gaya Juhu mein") llama 200 (reply validLiteral)
           (JObj [("success", JBool true); ("model_used", JStr "llama");
                  ("generated_text", JStr (String "{" (validInner ++ "}")))])
           EmptyString validInner EmptyString validFields
           "water_supply" "Juhu" "high" "Pipe burst at Juhu" "Pipe burst");
    try (vm_compute; reflexivity); discriminate.
Defined.

(** C6, as stated, fails: a JSON object with a description and no summary,
    which the fallback of the line parser would complete, makes
    callFineTunedLLM throw instead of being repaired. *)
Lemma missing_summary_is_fatal :
  callFineTunedLLM env0 (respond (reply noSummaryLiteral)) (JStr "paani kam aa raha hai") llama
  = Throw (Raised (IsError (newError INVALID_STRUCTURE)))
  /\ fillMissing (mkOutput "water_supply" "" "low" "Low water pressure" "")
     = mkOutput "water_supply" "" "low" "Low water pressure" "Low water pressure".
Proof. split; vm_compute; reflexivity. Qed.

(** C6, amended: after parsing, callFineTunedLLM throws its error of missing
    required fields when the department, severity, description or summary of
    the candidate is missing or empty, and returns a candidate that is a full
    record with non-empty description and summary; whatever it returns has
    the four fields non-empty.  The candidate of the line parser always has
    the four fields filled by its defaults and is never rejected; a candidate
    taken from a JSON object gets no defaults. *)
Theorem required_fields_check :
  (forall candidate : JsVal,
      requiredFieldsPresent candidate = false ->
      validateOutput candidate = Throw (Raised (IsError (newError INVALID_STRUCTURE))))
  /\ (forall candidate : JsVal,
        isGrievanceRecord candidate = true ->
        requiredFieldsPresent candidate = true ->
        validateOutput candidate = Normal candidate)
  /\ (forall text : string,
        requiredFieldsPresent (toObject (parsePlainTextOutput text)) = true
        /\ validateOutput (toObject (parsePlainTextOutput text))
           = Normal (toObject (parsePlainTextOutput text)))
  /\ (forall text : string,
        matchBraces text = None ->
        bind (parseGenerated (JStr text)) validateOutput
        = Normal (toObject (parsePlainTextOutput text)))
  /\ (forall (result : JsVal) (text : string),
        truthy (prop "success" result) = true ->
        prop "generated_text" result = JStr text ->
        text <> EmptyString ->
        matchBraces text = None ->
        handleResult result = Normal (toObject (parsePlainTextOutput text)))
  /\ (forall (env : Env) (net : Network) (userInput : JsVal) (model : LLMModel)
            (returned : JsVal),
        callFineTunedLLM env net userInput model = Normal returned ->
        requiredFieldsPresent returned = true).
Proof.
  assert (Hcheck : forall candidate,
             validateOutput candidate
             = if requiredFieldsPresent candidate then Normal candidate
               else Throw (Raised (IsError (newError INVALID_STRUCTURE)))).
  { intros candidate. unfold validateOutput, requiredFieldsPresent.
    destruct (truthy (prop "department" candidate)); [|reflexivity].
    destruct (truthy (prop "severity" candidate)); [|reflexivity].
    destruct (truthy (prop "description" candidate)); [|reflexivity].
    destruct (truthy (prop "summary" candidate)); reflexivity. }
  repeat split.
  - intros candidate H. now rewrite Hcheck, H.
  - intros candidate _ H. now rewrite Hcheck, H.
  - destruct (plainText_is_record text) as [_ H]. rewrite Hcheck in H.
    destruct (requiredFieldsPresent _); [reflexivity | discriminate].
  - apply plainText_is_record.
  - intros text H. rewrite parseGenerated_text, H. cbn [bind].
    apply plainText_is_record.
  - intros result text Hs Hg Ht H.
    rewrite (handleResult_text _ _ Hs Hg Ht), parseGenerated_text, H. cbn [bind].
    apply plainText_is_record.
  - intros env net userInput model returned H. unfold callFineTunedLLM in H.
    destruct (net _) as [e|status body]; [discriminate|].
    destruct (negb (ok status)); [discriminate|].
    destruct (responseJson body) as [result|e]; [|discriminate].
    unfold handleResult in H.
    destruct (raise (get "model_used" result)); cbn [bind] in H; [|discriminate].
    destruct (negb (truthy (prop "success" result))).
    { unfold throwNewError in H. destruct (orElse _ _); discriminate. }
    destruct (parseGenerated _) as [candidate|e]; cbn [bind] in H; [|discriminate].
    rewrite Hcheck in H.
    destruct (requiredFieldsPresent candidate) eqn:R; [|discriminate].
    injection H as <-. exact R.
Qed.

Lemma required_fields_check_witness :
  validateOutput (JObj [("department", JStr "water_supply"); ("severity", JStr "low");
                        ("description", JStr "Low water pressure")])
  = Throw (Raised (IsError (newError INVALID_STRUCTURE))).
Proof.
  apply (proj1 required_fields_check). reflexivity.
Defined.

(** ** The service clients and the handler *)

Lemma fetchJson_outcome (net : Network) (req : Request) :
  if fetchFails (net req)
  then exists e, WhisperLocal.fetchJson net req = Throw e
  else exists v, JSON_parse (match net req with
                             | Responded _ text => text
                             | Rejected _ => EmptyString
                             end) = Some v
                 /\ WhisperLocal.fetchJson net req = Normal v.
Proof.
  unfold fetchFails, WhisperLocal.fetchJson, responseJson.
  destruct (net req) as [e|status text]; [now exists e|].
  destruct (ok status); cbn [negb orb].
  - destruct (JSON_parse text) as [v|]; [now exists v | eexists; reflexivity].
  - eexists; reflexivity.
Qed.

(** C10: transcribeAudioLocal, translateToEnglishLocal and
    categorizeGrievanceLocal return on every input and every behaviour of the
    network; when the fetch rejects, the status is not 2xx or the body is not
    JSON, what they return is the failure object: success false, an error
    string, the text fields empty and, for the translation, original_text the
    very input. *)
Theorem clients_never_throw (env : Env) (net : Network) (audioBlob : Blob)
    (text : JsVal) (model : option LLMModel) (fastMode : option bool) :
  (exists r,
      WhisperLocal.transcribeAudioLocal env net audioBlob = Normal r
      /\ (fetchFails (net (WhisperLocal.transcribeRequest env audioBlob)) = true ->
          exists msg,
            r = JObj [("text", JStr ""); ("success", JBool false); ("error", JStr msg)]))
  /\ (exists r,
        WhisperLocal.translateToEnglishLocal env net text = Normal r
        /\ (fetchFails (net (WhisperLocal.translateRequest env text)) = true ->
            exists msg,
              r = JObj [("translated_text", JStr ""); ("original_text", text);
                        ("success", JBool false); ("error", JStr msg)]))
  /\ (exists r,
        GrievanceLocal.categorizeGrievanceLocal env net text model fastMode = Normal r
        /\ (fetchFails (net (GrievanceLocal.categorizeLocalRequest env text model fastMode))
            = true ->
            exists msg,
              r = JObj [("text", JStr ""); ("generated_text", JStr "");
                        ("success", JBool false); ("error", JStr msg)])).
Proof.
  repeat split.
  - unfold WhisperLocal.transcribeAudioLocal.
    pose proof (fetchJson_outcome net (WhisperLocal.transcribeRequest env audioBlob)) as H.
    destruct (fetchFails _).
    + destruct H as [e ->]. eexists. split; [reflexivity|]. intros _. eexists. reflexivity.
    + destruct H as (v & _ & ->). exists v. split; [reflexivity | discriminate].
  - unfold WhisperLocal.translateToEnglishLocal.
    pose proof (fetchJson_outcome net (WhisperLocal.translateRequest env text)) as H.
    destruct (fetchFails _).
    + destruct H as [e ->]. eexists. split; [reflexivity|]. intros _. eexists. reflexivity.
    + destruct H as (v & _ & ->). exists v. split; [reflexivity | discriminate].
  - unfold GrievanceLocal.categorizeGrievanceLocal.
    pose proof (fetchJson_outcome net
                  (GrievanceLocal.categorizeLocalRequest env text model fastMode)) as H.
    destruct (fetchFails _).
    + destruct H as [e ->]. eexists. split; [reflexivity|]. intros _. eexists. reflexivity.
    + destruct H as (v & _ & ->). exists v. split; [reflexivity | discriminate].
Qed.

Lemma translation_failed_keeps_text (env : Env) (net : Network) (transcribed : JsVal) :
  translationFailed (net (WhisperLocal.translateRequest env transcribed)) = true ->
  exists translationResult,
    WhisperLocal.translateToEnglishLocal env net transcribed = Normal translationResult
    /\ ComplaintForm.chooseFinalText transcribed translationResult = Normal transcribed.
Proof.
  intros H. unfold translationFailed in H.
  unfold WhisperLocal.translateToEnglishLocal.
  pose proof (fetchJson_outcome net (WhisperLocal.translateRequest env transcribed)) as Hf.
  destruct (fetchFails _).
  - destruct Hf as [e ->]. eexists. split; reflexivity.
  - destruct Hf as (v & Hv & ->). exists v. split; [reflexivity|].
    cbn [orb] in H.
    destruct (net (WhisperLocal.translateRequest env transcribed)) as [e|status body];
      [discriminate|].
    rewrite Hv in H. destruct v as [| | | | |items|fields]; try discriminate.
    unfold ComplaintForm.chooseFinalText. cbn [get bind].
    destruct (truthy (prop "success" (JObj fields))); [|reflexivity].
    cbn [negb orb] in H. apply negb_true_iff in H. now rewrite H.
Qed.

(** C7: when the translation fails (the call errors, the status is not 2xx,
    the body does not decode, or the decoded object has a falsy success or an
    empty translated_text), the handler goes on with the transcribed text: it
    is the text chosen as final, it is written to the description of the form,
    and it is what the categorization step is called on.  The empty
    translated_text of a failed translation is never written. *)
Theorem translation_fallback (env : Env) (net : Network)
    (processWithAI : JsVal -> ComplaintForm.State -> ComplaintForm.State)
    (audio : Blob) (st : ComplaintForm.State) (health result : JsVal) :
  WhisperLocal.checkLocalWhisperHealth env net = Normal health ->
  truthy health = true ->
  WhisperLocal.transcribeAudioLocal env net audio = Normal result ->
  truthy (prop "success" result) = true ->
  translationFailed (net (WhisperLocal.translateRequest env (prop "text" result))) = true ->
  exists translationResult,
    WhisperLocal.translateToEnglishLocal env net (prop "text" result)
    = Normal translationResult
    /\ ComplaintForm.chooseFinalText (prop "text" result) translationResult
       = Normal (prop "text" result)
    /\ ComplaintForm.handleTranscribe env net processWithAI audio st
       = ComplaintForm.setIsTranscribing false
           (if ComplaintForm.useAIAutofill st
            then processWithAI (prop "text" result)
                   (ComplaintForm.toast (ComplaintForm.mkToast "Transcription complete" false)
                      (ComplaintForm.setFormDescription (prop "text" result)
                         (ComplaintForm.setTranscription (prop "text" result)
                            (ComplaintForm.setIsTranscribing true st))))
            else ComplaintForm.toast (ComplaintForm.mkToast "Transcription complete" false)
                   (ComplaintForm.setFormDescription (prop "text" result)
                      (ComplaintForm.setTranscription (prop "text" result)
                         (ComplaintForm.setIsTranscribing true st))))
    /\ ComplaintForm.description
         (ComplaintForm.formData
            (ComplaintForm.toast (ComplaintForm.mkToast "Transcription complete" false)
               (ComplaintForm.setFormDescription (prop "text" result)
                  (ComplaintForm.setTranscription (prop "text" result)
                     (ComplaintForm.setIsTranscribing true st)))))
       = prop "text" result.
Proof.
  intros Hh Hht Ht Hs Hfail.
  destruct (translation_failed_keeps_text env net _ Hfail) as (tr & Htr & Hfinal).
  exists tr. repeat split; try assumption.
  unfold ComplaintForm.handleTranscribe, ComplaintForm.transcribeBody.
  rewrite Hh, Hht, Ht. cbn [negb].
  destruct result as [| | | | |items|fields]; try discriminate Hs.
  cbn [get]. rewrite Hs. cbn [negb]. rewrite Htr, Hfinal.
  destruct st as [fd it ai tr0 ts]. cbn [ComplaintForm.useAIAutofill ComplaintForm.setIsTranscribing].
  destruct ai; reflexivity.
Qed.

Lemma translation_fallback_witness :
  ComplaintForm.description
    (ComplaintForm.formData
       (ComplaintForm.handleTranscribe env0 (translationDown "Naala band ho gaya hai")
          (fun _ s => s) EmptyString ComplaintForm.initialState))
  = JStr "Naala band ho gaya hai".
Proof.
  destruct (translation_fallback env0 (translationDown "Naala band ho gaya hai")
              (fun _ s => s) EmptyString ComplaintForm.initialState
              (JBool true)
              (JObj [("text", JStr "Naala band ho gaya hai"); ("success", JBool true)])
              eq_refl eq_refl eq_refl eq_refl eq_refl)
    as (translationResult & _ & _ & Hrun & _).
  rewrite Hrun. reflexivity.
Defined.

Lemma clients_never_throw_witness :
  exists msg,
    WhisperLocal.translateToEnglishLocal env0 refuse (JStr "paani nahi aa raha")
    = Normal (JObj [("translated_text", JStr ""); ("original_text", JStr "paani nahi aa raha");
                    ("success", JBool false); ("error", JStr msg)]).
Proof.
  destruct (proj1 (proj2 (clients_never_throw env0 refuse EmptyString
                            (JStr "paani nahi aa raha") None None)))
    as (r & Hr & Hfail).
  destruct (Hfail eq_refl) as [msg Hmsg].
  exists msg. rewrite Hr, Hmsg. reflexivity.
Defined.

(** ** JSON.parse never runs out of fuel *)

Lemma skipWs_length (s : string) : String.length (skipWs s) <= String.length s.
Proof.
  induction s as [|c t IH]; simpl; [lia|].
  destruct (isJsonWs c); simpl; lia.
Qed.

Lemma skipWs_cons (s : string) (c : ascii) (r : string) :
  skipWs s = String c r -> String.length r < String.length s.
Proof.
  intros H. pose proof (skipWs_length s) as L. rewrite H in L. simpl in L. lia.
Qed.

Lemma parseChars_length (s str rest : string) :
  parseChars s = Some (str, rest) -> String.length rest < String.length s.
Proof.
  remember (String.length s) as n eqn:Hn.
  revert s str rest Hn.
  induction n as [n IH] using lt_wf_ind. intros s str rest Hn H.
  destruct s as [|c t]; [discriminate|]. simpl in H, Hn.
  destruct (Ascii.eqb c DQUOTE).
  { injection H as _ <-. lia. }
  destruct (Ascii.eqb c BACKSLASH).
  - destruct t as [|e t1]; [discriminate|].
    destruct (Ascii.eqb e "u").
    + destruct t1 as [|h1 [|h2 [|h3 [|h4 t2]]]]; try discriminate.
      destruct (hex4 h1 h2 h3 h4) as [k|]; [|discriminate].
      destruct (k <? 256)%N; [|discriminate].
      destruct (parseChars t2) as [[str' rest']|] eqn:E; [|discriminate].
      injection H as _ <-. simpl in Hn.
      pose proof (IH (String.length t2) ltac:(lia) t2 str' rest' eq_refl E). lia.
    + destruct (escapeChar e); [|discriminate].
      destruct (parseChars t1) as [[str' rest']|] eqn:E; [|discriminate].
      injection H as _ <-. simpl in Hn.
      pose proof (IH (String.length t1) ltac:(lia) t1 str' rest' eq_refl E). lia.
  - destruct (code c <? 32)%N; [discriminate|].
    destruct (parseChars t) as [[str' rest']|] eqn:E; [|discriminate].
    injection H as _ <-.
    pose proof (IH (String.length t) ltac:(lia) t str' rest' eq_refl E). lia.
Qed.

Lemma takeDigits_length (s ds r : string) :
  takeDigits s = (ds, r) -> String.length r <= String.length s.
Proof.
  revert ds r. induction s as [|c t IH]; simpl; intros ds r H.
  - injection H as _ <-. simpl. lia.
  - destruct (isDigit c).
    + destruct (takeDigits t) as [ds' r'] eqn:E. injection H as _ <-.
      pose proof (IH ds' r' eq_refl). lia.
    + injection H as _ <-. simpl. lia.
Qed.

Lemma parseInt_length (s ints r : string) :
  parseInt s = Some (ints, r) -> String.length r < String.length s.
Proof.
  unfold parseInt. destruct s as [|c t]; [discriminate|].
  destruct (Ascii.eqb c "0").
  - intros H. injection H as _ <-. simpl. lia.
  - destruct (isDigit c) eqn:D; [|discriminate].
    intros H. injection H as H. simpl in H. rewrite D in H.
    destruct (takeDigits t) as [ds' r'] eqn:E. injection H as _ <-.
    pose proof (takeDigits_length _ _ _ E). simpl. lia.
Qed.

Lemma parseFrac_length (s fracs r : string) :
  parseFrac s = Some (fracs, r) -> String.length r <= String.length s.
Proof.
  unfold parseFrac. destruct s as [|c t].
  - intros H. injection H as _ <-. lia.
  - destruct (Ascii.eqb c ".").
    + destruct (takeDigits t) as [ds r'] eqn:E. destruct (isEmpty ds); [discriminate|].
      intros H. injection H as _ <-. pose proof (takeDigits_length _ _ _ E). simpl. lia.
    + intros H. injection H as _ <-. lia.
Qed.

Lemma parseExp_length (s : string) (e : Z) (r : string) :
  parseExp s = Some (e, r) -> String.length r <= String.length s.
Proof.
  unfold parseExp. destruct s as [|c t].
  - intros H. injection H as _ <-. lia.
  - destruct (Ascii.eqb c "e" || Ascii.eqb c "E").
    + destruct t as [|sg t'].
      * simpl. discriminate.
      * destruct (Ascii.eqb sg "-").
        { destruct (takeDigits t') as [ds r'] eqn:E. destruct (isEmpty ds); [discriminate|].
          intros H. injection H as _ <-. pose proof (takeDigits_length _ _ _ E). simpl. lia. }
        destruct (Ascii.eqb sg "+").
        { destruct (takeDigits t') as [ds r'] eqn:E. destruct (isEmpty ds); [discriminate|].
          intros H. injection H as _ <-. pose proof (takeDigits_length _ _ _ E). simpl. lia. }
        destruct (takeDigits (String sg t')) as [ds r'] eqn:E.
        destruct (isEmpty ds); [discriminate|].
        intros H. injection H as _ <-. pose proof (takeDigits_length _ _ _ E). simpl in *. lia.
    + intros H. injection H as _ <-. lia.
Qed.

Lemma parseNumber_length (s : string) (n : JsNumber) (r : string) :
  parseNumber s = Some (n, r) -> String.length r < String.length s.
Proof.
  unfold parseNumber.
  set (p := match s with
            | String c t => if Ascii.eqb c "-" then (true, t) else (false, s)
            | EmptyString => (false, s)
            end).
  assert (Hp : String.length (snd p) <= String.length s).
  { subst p. destruct s as [|c t]; simpl; [lia|]. destruct (Ascii.eqb c "-"); simpl; lia. }
  destruct p as [neg s1]. simpl in Hp.
  destruct (parseInt s1) as [[ints r1]|] eqn:E1; [|discriminate].
  destruct (parseFrac r1) as [[fracs r2]|] eqn:E2; [|discriminate].
  destruct (parseExp r2) as [[e r3]|] eqn:E3; [|discriminate].
  intros H. injection H as _ <-.
  pose proof (parseInt_length _ _ _ E1). pose proof (parseFrac_length _ _ _ E2).
  pose proof (parseExp_length _ _ _ E3). lia.
Qed.

Lemma stripPrefix_length (p s r : string) :
  stripPrefix p s = Some r -> String.length r + String.length p = String.length s.
Proof.
  revert s. induction p as [|a p IH]; intros s H.
  - simpl in H. injection H as <-. simpl. lia.
  - destruct s as [|b s']; [discriminate|]. simpl in H.
    destruct (Ascii.eqb a b); [|discriminate].
    pose proof (IH s' H). simpl. lia.
Qed.

Lemma parseLiteral_length (s : string) (v : JsVal) (r : string) :
  parseLiteral s = Ok v r -> String.length r < String.length s.
Proof.
  unfold parseLiteral.
  destruct (stripPrefix "true" s) eqn:E1.
  { intros H. injection H as _ <-. pose proof (stripPrefix_length _ _ _ E1). simpl in *. lia. }
  destruct (stripPrefix "false" s) eqn:E2.
  { intros H. injection H as _ <-. pose proof (stripPrefix_length _ _ _ E2). simpl in *. lia. }
  destruct (stripPrefix "null" s) eqn:E3; [|discriminate].
  intros H. injection H as _ <-. pose proof (stripPrefix_length _ _ _ E3). simpl in *. lia.
Qed.

Lemma parseLiteral_fuel (s : string) : parseLiteral s <> OutOfFuel.
Proof.
  unfold parseLiteral.
  destruct (stripPrefix "true" s); [discriminate|].
  destruct (stripPrefix "false" s); [discriminate|].
  destruct (stripPrefix "null" s); discriminate.
Qed.

Ltac break_parse H :=
  repeat match type of H with
         | context [match skipWs ?s with _ => _ end] =>
             let E := fresh "Ews" in
             destruct (skipWs s) eqn:E; [try discriminate H | apply skipWs_cons in E]
         | context [match parseChars ?s with _ => _ end] =>
             let E := fresh "Echars" in
             destruct (parseChars s) as [[? ?]|] eqn:E;
             [apply parseChars_length in E | try discriminate H]
         | context [match parseNumber ?s with _ => _ end] =>
             let E := fresh "Enum" in
             destruct (parseNumber s) as [[? ?]|] eqn:E;
             [apply parseNumber_length in E | try discriminate H]
         | context [match parseValue ?f ?s with _ => _ end] =>
             let E := fresh "Eval" in
             destruct (parseValue f s) eqn:E; try discriminate H
         | context [match parseMembers ?f ?s with _ => _ end] =>
             let E := fresh "Emem" in
             destruct (parseMembers f s) eqn:E; try discriminate H
         | context [match parseElements ?f ?s with _ => _ end] =>
             let E := fresh "Eelt" in
             destruct (parseElements f s) eqn:E; try discriminate H
         | context [if ?b then _ else _] => destruct b eqn:?; try discriminate H
         end.

Ltac use_consumed IHv IHm IHe :=
  repeat match goal with
         | E : parseValue _ _ = Ok _ _ |- _ => apply IHv in E
         | E : parseMembers _ _ = Ok _ _ |- _ => apply IHm in E
         | E : parseElements _ _ = Ok _ _ |- _ => apply IHe in E
         | E : parseLiteral _ = Ok _ _ |- _ => apply parseLiteral_length in E
         end.

Lemma parse_consumes (f : nat) :
  (forall s v r, parseValue f s = Ok v r -> String.length r < String.length s)
  /\ (forall s m r, parseMembers f s = Ok m r -> String.length r < String.length s)
  /\ (forall s l r, parseElements f s = Ok l r -> String.length r < String.length s).
Proof.
  induction f as [|f (IHv & IHm & IHe)]; [repeat split; intros; discriminate|].
  repeat split.
  - intros s v r H. simpl in H. break_parse H;
      try (injection H as _ <-); use_consumed IHv IHm IHe; simpl in *; lia.
  - intros s m r H. simpl in H. break_parse H;
      try (injection H as _ <-); use_consumed IHv IHm IHe; simpl in *; lia.
  - intros s l r H. simpl in H. break_parse H;
      try (injection H as _ <-); use_consumed IHv IHm IHe; simpl in *; lia.
Qed.

Ltac out_of_fuel IHv IHm IHe :=
  match goal with
  | E : parseValue _ _ = OutOfFuel |- _ => exfalso; revert E; apply IHv
  | E : parseMembers _ _ = OutOfFuel |- _ => exfalso; revert E; apply IHm
  | E : parseElements _ _ = OutOfFuel |- _ => exfalso; revert E; apply IHe
  | E : parseLiteral _ = OutOfFuel |- _ => exfalso; revert E; apply parseLiteral_fuel
  end.

Lemma parse_fuel_enough (f : nat) :
  (forall s, 2 * String.length s < f -> parseValue f s <> OutOfFuel)
  /\ (forall s, 2 * String.length s + 2 <= f -> parseMembers f s <> OutOfFuel)
  /\ (forall s, 2 * String.length s + 2 <= f -> parseElements f s <> OutOfFuel).
Proof.
  induction f as [|f (IHv & IHm & IHe)]; [repeat split; intros; lia|].
  destruct (parse_consumes f) as (Cv & Cm & Ce).
  repeat split.
  - intros s L H. simpl in H. break_parse H;
      use_consumed Cv Cm Ce; out_of_fuel IHv IHm IHe; simpl in *; lia.
  - intros s L H. simpl in H. break_parse H;
      use_consumed Cv Cm Ce; out_of_fuel IHv IHm IHe; simpl in *; lia.
  - intros s L H. simpl in H. break_parse H;
      use_consumed Cv Cm Ce; out_of_fuel IHv IHm IHe; simpl in *; lia.
Qed.

(** JSON.parse as modelled stops for a syntax error only: the value is
    malformed, or characters other than white space follow it. *)
Lemma parse_fuel (text : string) :
  parseValue (S (2 * String.length text)) text <> OutOfFuel
  /\ (JSON_parse text = None ->
      parseValue (S (2 * String.length text)) text = SyntaxError
      \/ exists v rest,
           parseValue (S (2 * String.length text)) text = Ok v rest
           /\ skipWs rest <> EmptyString).
Proof.
  assert (H : parseValue (S (2 * String.length text)) text <> OutOfFuel).
  { apply (proj1 (parse_fuel_enough _)). lia. }
  split; [exact H|].
  unfold JSON_parse.
  destruct (parseValue (S (2 * String.length text)) text) as [v rest| |]; intros E.
  - right. exists v, rest. split; [reflexivity|].
    destruct (skipWs rest); [discriminate E | discriminate].
  - now left.
  - now elim H.
Qed.

(** * Further properties of the code *)

Import LlmFallback SpecExtra.
From Stdlib Require Import Permutation.

(** ** The line parser *)

Lemma substring0_length (n : nat) (s : string) :
  String.length (substring0 n s) <= n.
Proof.
  unfold substring0. revert s. induction n as [|n IH]; intros s.
  - destruct s; simpl; lia.
  - destruct s as [|c t]; simpl; [lia|]. specialize (IH t). lia.
Qed.

Lemma substring0_nonempty (n : nat) (s : string) :
  isEmpty s = false -> isEmpty (substring0 (S n) s) = false.
Proof. destruct s; [discriminate | reflexivity]. Qed.

Lemma substring0_all (n : nat) (s : string) :
  String.length s <= n -> substring0 n s = s.
Proof.
  unfold substring0. revert s. induction n as [|n IH]; intros s H.
  - destruct s; simpl in *; [reflexivity | lia].
  - destruct s as [|c t]; simpl in *; [reflexivity|]. rewrite IH; [reflexivity | lia].
Qed.

Lemma substring0_exact (n : nat) (s : string) :
  n <= String.length s -> String.length (substring0 n s) = n.
Proof.
  unfold substring0. revert s. induction n as [|n IH]; intros s H.
  - destruct s; reflexivity.
  - destruct s as [|c t]; simpl in *; [lia|]. rewrite IH; [reflexivity | lia].
Qed.

Lemma substring0_prefix (n : nat) (s : string) :
  exists rest, s = substring0 n s ++ rest.
Proof.
  unfold substring0. revert s. induction n as [|n IH]; intros s.
  - exists s. destruct s; reflexivity.
  - destruct s as [|c t]; simpl; [now exists EmptyString|].
    destruct (IH t) as [rest Hr]. exists rest. now rewrite <- Hr.
Qed.

(** X1: whenever the record comes from the lines of a non-empty generated
    text (the text has no brace span, or its span is not JSON),
    callFineTunedLLM returns it and it is a full record: five string
    fields, department and severity enum members. *)
Theorem line_path_returns_record (env : Env) (net : Network) (userInput : JsVal)
    (model : LLMModel) (status : N) (body : string) (result : JsVal) (text : string) :
  net (categorizeRequest env userInput model) = Responded status body ->
  ok status = true ->
  JSON_parse body = Some result ->
  truthy (prop "success" result) = true ->
  prop "generated_text" result = JStr text ->
  text <> EmptyString ->
  (matchBraces text = None
   \/ exists span, matchBraces text = Some span /\ JSON_parse span = None) ->
  callFineTunedLLM env net userInput model = Normal (toObject (parsePlainTextOutput text))
  /\ isGrievanceRecord (toObject (parsePlainTextOutput text)) = true.
Proof.
  intros Hnet Hok Hbody Hs Hg Ht Hline.
  destruct (plainText_is_record text) as [Hrec Hval].
  split; [|exact Hrec].
  rewrite (callFineTunedLLM_decoded _ _ _ _ _ _ _ Hnet Hok Hbody).
  rewrite (handleResult_text _ _ Hs Hg Ht), parseGenerated_text.
  destruct Hline as [-> | (span & -> & ->)]; exact Hval.
Qed.

Lemma line_path_returns_record_witness :
  callFineTunedLLM env0 (respond (reply "Department: water {pipe")) (JStr "paani") llama
  = Normal (toObject (parsePlainTextOutput "Department: water {pipe")).
Proof.
  apply (line_path_returns_record env0 (respond (reply "Department: water {pipe"))
           (JStr "paani") llama 200 (reply "Department: water {pipe")
           (JObj [("success", JBool true); ("model_used", JStr "llama");
                  ("generated_text", JStr "Department: water {pipe")])
           "Department: water {pipe");
    try (vm_compute; reflexivity); [discriminate | now left].
Defined.

(** X2: a value keeps its own colons.  For a text of one Location line the
    location is all that follows the first colon, trimmed; for a text of one
    Description line with a value, the description is that value and the
    summary its first 80 characters. *)
Theorem labelled_value_kept (v : string) :
  allChars notLF v = true ->
  location (parsePlainTextOutput ("Location:" ++ v)) = trim v
  /\ (trim v <> EmptyString ->
      description (parsePlainTextOutput ("Description:" ++ v)) = trim v
      /\ summary (parsePlainTextOutput ("Description:" ++ v)) = substring0 80 (trim v)).
Proof.
  intros Hv. split.
  - unfold parsePlainTextOutput. rewrite fillMissing_location.
    change ("Location:" ++ v) with (String "L" "ocation" ++ String ":" v).
    rewrite (parseLines_labelled "L" "ocation" v eq_refl eq_refl Hv).
    change (trim (toLowerCase "Location")) with "location".
    destruct (isEmpty (trim v)) eqn:E.
    + apply isEmpty_true in E. now rewrite E.
    + reflexivity.
  - intros Hne. unfold parsePlainTextOutput.
    change ("Description:" ++ v) with (String "D" "escription" ++ String ":" v).
    rewrite (parseLines_labelled "D" "escription" v eq_refl eq_refl Hv).
    change (trim (toLowerCase "Description")) with "description".
    destruct (trim v) as [|a rest]; [congruence|].
    split; reflexivity.
Qed.

Lemma labelled_value_kept_witness :
  location (parsePlainTextOutput ("Location:" ++ " Gate 2: near 10:30 bus stop ")) 
  = "Gate 2: near 10:30 bus stop".
Proof.
  rewrite (proj1 (labelled_value_kept " Gate 2: near 10:30 bus stop " eq_refl)).
  reflexivity.
Defined.

(** X3: the summary fallback.  A candidate without summary gets the first 80
    characters of its final description, so at most 80 characters and a
    prefix of the description; the literal No summary provided is never
    used.  A summary that is there is kept. *)
Theorem summary_fallback (candidate : LLMOutput) :
  (summary candidate = EmptyString ->
   summary (fillMissing candidate) = substring0 80 (description (fillMissing candidate))
   /\ String.length (summary (fillMissing candidate)) <= 80
   /\ exists rest,
        description (fillMissing candidate) = summary (fillMissing candidate) ++ rest)
  /\ (summary candidate <> EmptyString ->
      summary (fillMissing candidate) = summary candidate).
Proof.
  split.
  - intros S.
    assert (E : summary (fillMissing candidate)
                = substring0 80 (description (fillMissing candidate))).
    { pose proof (fillMissing_description candidate) as D.
      destruct candidate as [d l s desc summ]. simpl in S. subst summ.
      unfold fillMissing in *. cbn [description summary setDescription setSummary] in *.
      destruct (isEmpty desc) eqn:Ed.
      - cbn [isEmpty description summary setDescription setSummary] in *. reflexivity.
      - cbn [isEmpty description summary setDescription setSummary] in *.
        now rewrite (substring0_nonempty 79 _ Ed). }
    rewrite E. split; [reflexivity|]. split; [apply substring0_length|].
    apply substring0_prefix.
  - intros S. apply isEmpty_false in S.
    destruct candidate as [d l s desc summ]. simpl in S.
    unfold fillMissing. cbn [description summary setDescription setSummary].
    destruct (isEmpty desc); cbn [summary setDescription]; rewrite S; reflexivity.
Qed.

Lemma summary_fallback_witness :
  String.length (summary (fillMissing (parseLines "Department: water"))) <= 80.
Proof.
  apply (proj1 (summary_fallback (parseLines "Department: water"))). reflexivity.
Defined.









(** ** callFineTunedLLM: replies without a usable text, and failures *)

(** X5: a successful reply without generated text is not an error.  When
    generated_text is missing or falsy the field output is read instead;
    when both are missing or falsy the empty text is parsed and the caller
    gets the record of defaults: roads_and_traffic, medium, no location, and
    the placeholder as description and summary. *)
Theorem missing_generation_defaults (env : Env) (net : Network) (userInput : JsVal)
    (model : LLMModel) (status : N) (body : string) (result : JsVal) :
  net (categorizeRequest env userInput model) = Responded status body ->
  ok status = true ->
  JSON_parse body = Some result ->
  truthy (prop "success" result) = true ->
  truthy (prop "generated_text" result) = false ->
  (truthy (prop "output" result) = false ->
   callFineTunedLLM env net userInput model
   = Normal (toObject (mkOutput "roads_and_traffic" "" "medium"
                                "No description provided" "No description provided")))
  /\ (truthy (prop "output" result) = true ->
      callFineTunedLLM env net userInput model
      = bind (parseGenerated (prop "output" result)) validateOutput).
Proof.
  intros Hnet Hok Hbody Hs Hg.
  rewrite (callFineTunedLLM_decoded _ _ _ _ _ _ _ Hnet Hok Hbody).
  unfold handleResult. destruct result; try discriminate Hs.
  cbn [get raise tryCatch bind]. rewrite Hs. cbn [negb].
  unfold orElse. rewrite Hg.
  split; intros Ho; rewrite Ho; reflexivity.
Qed.

Lemma missing_generation_defaults_witness :
  callFineTunedLLM env0 (respond (quoted "{'success':true,'generated_text':''}"))
                   (JStr "sadak tuti hai") llama
  = Normal (toObject (mkOutput "roads_and_traffic" "" "medium"
                               "No description provided" "No description provided")).
Proof.
  apply (proj1 (missing_generation_defaults env0
                  (respond (quoted "{'success':true,'generated_text':''}"))
                  (JStr "sadak tuti hai") llama 200
                  (quoted "{'success':true,'generated_text':''}")
                  (JObj [("success", JBool true); ("generated_text", JStr "")])
                  eq_refl eq_refl eq_refl eq_refl eq_refl)).
  reflexivity.
Defined.

(** X6: callFineTunedLLM returns a record only for a reply with a 2xx
    status whose body decodes to a value with a truthy success.  A rejected
    fetch is thrown on as it is; a status outside 2xx throws an Error whose
    message is Local model server error followed by the body text; a decoded
    reply with a falsy success throws an Error with the reply's error text,
    or Model processing failed when it has none. *)
Theorem record_only_from_successful_reply (env : Env) (net : Network) (userInput : JsVal)
    (model : LLMModel) :
  (forall returned,
      callFineTunedLLM env net userInput model = Normal returned ->
      exists status body result,
        net (categorizeRequest env userInput model) = Responded status body
        /\ ok status = true
        /\ JSON_parse body = Some result
        /\ truthy (prop "success" result) = true)
  /\ (forall e,
        net (categorizeRequest env userInput model) = Rejected e ->
        callFineTunedLLM env net userInput model = Throw (Raised e))
  /\ (forall status body,
        net (categorizeRequest env userInput model) = Responded status body ->
        ok status = false ->
        callFineTunedLLM env net userInput model
        = Throw (Raised (IsError (newError ("Local model server error: " ++ body)))))
  /\ (forall status body fields,
        net (categorizeRequest env userInput model) = Responded status body ->
        ok status = true ->
        JSON_parse body = Some (JObj fields) ->
        truthy (prop "success" (JObj fields)) = false ->
        callFineTunedLLM env net userInput model
        = match prop "error" (JObj fields) with
          | JStr msg =>
              Throw (Raised (IsError (newError
                (if isEmpty msg then "Model processing failed" else msg))))
          | other =>
              if truthy other then Throw (RaisedErrorOf other)
              else Throw (Raised (IsError (newError "Model processing failed")))
          end).
Proof.
  split; [|split; [|split]].
  - intros returned H. unfold callFineTunedLLM in H.
    destruct (net _) as [e|status body]; [discriminate|].
    destruct (ok status) eqn:Hok; [|discriminate]. cbn [negb] in H.
    unfold responseJson in H.
    destruct (JSON_parse body) as [result|] eqn:Hbody; [|discriminate].
    exists status, body, result. repeat split; try assumption.
    unfold handleResult in H.
    destruct (raise (get "model_used" result)); cbn [bind] in H; [|discriminate].
    destruct (truthy (prop "success" result)); [reflexivity|].
    cbn [negb] in H. unfold throwNewError in H. destruct (orElse _ _); discriminate.
  - intros e H. unfold callFineTunedLLM. now rewrite H.
  - intros status body H Hok. unfold callFineTunedLLM. now rewrite H, Hok.
  - intros status body fields Hnet Hok Hbody Hs.
    rewrite (callFineTunedLLM_decoded _ _ _ _ _ _ _ Hnet Hok Hbody).
    unfold handleResult. cbn [get raise tryCatch bind]. rewrite Hs. cbn [negb].
    unfold orElse, throwNewError.
    destruct (prop "error" (JObj fields)) as [| |b|n|s|items|fs]; cbn [truthy]; try reflexivity.
    + destruct b; reflexivity.
    + destruct (numberIsZero n); reflexivity.
    + destruct s; reflexivity.
Qed.

Lemma record_only_from_successful_reply_witness :
  callFineTunedLLM env0 (fun _ => Responded 503 "model loading") (JStr "paani") mistral
  = Throw (Raised (IsError (newError "Local model server error: model loading"))).
Proof.
  apply (proj1 (proj2 (proj2 (record_only_from_successful_reply env0
                  (fun _ => Responded 503 "model loading") (JStr "paani") mistral)))
           503%N "model loading" eq_refl eq_refl).
Defined.

(** X7: a generated_text that is no text.  A number or the value true
    cannot be searched or split: the call throws an Error whose message
    starts with Failed to parse LLM output.  An array has none of the
    required fields and is rejected.  An object is checked as it is and
    returned when its four required fields are non-empty. *)
Theorem generated_value_not_text (result generated : JsVal) :
  truthy (prop "success" result) = true ->
  prop "generated_text" result = generated ->
  truthy generated = true ->
  match generated with
  | JNum _ | JBool _ =>
      exists msg,
        handleResult result
        = Throw (Raised (IsError (newError ("Failed to parse LLM output: " ++ msg))))
  | JArr _ =>
      handleResult result = Throw (Raised (IsError (newError INVALID_STRUCTURE)))
  | JObj _ =>
      handleResult result
      = if requiredFieldsPresent generated then Normal generated
        else Throw (Raised (IsError (newError INVALID_STRUCTURE)))
  | _ => True
  end.
Proof.
  intros Hs Hg Ht. unfold handleResult.
  destruct result; try discriminate Hs.
  cbn [get raise tryCatch bind]. rewrite Hs, Hg. cbn [negb].
  unfold orElse. rewrite Ht.
  destruct generated as [| |b|n|s|items|fs]; try exact I.
  - eexists. reflexivity.
  - eexists. reflexivity.
  - reflexivity.
  - cbn [parseGenerated extractOutput isObject tryCatch bind].
    unfold validateOutput, requiredFieldsPresent.
    destruct (truthy (prop "department" (JObj fs))); [|reflexivity].
    destruct (truthy (prop "severity" (JObj fs))); [|reflexivity].
    destruct (truthy (prop "description" (JObj fs))); [|reflexivity].
    destruct (truthy (prop "summary" (JObj fs))); reflexivity.
Qed.

Lemma generated_value_not_text_witness :
  handleResult (JObj [("success", JBool true); ("generated_text", JArr [JStr "water"])])
  = Throw (Raised (IsError (newError INVALID_STRUCTURE))).
Proof.
  apply (generated_value_not_text
           (JObj [("success", JBool true); ("generated_text", JArr [JStr "water"])])
           (JArr [JStr "water"]) eq_refl eq_refl eq_refl).
Defined.

(** ** The rule-based fallback *)

Lemma length_app_str (a b : string) :
  String.length (a ++ b) = String.length a + String.length b.
Proof. induction a as [|c a IH]; simpl; [reflexivity | now rewrite IH]. Qed.

Lemma simpleCategorization_shape (input : string) :
  inList (department (simpleCategorization input)) DEPARTMENTS = true
  /\ inList (severity (simpleCategorization input)) SEVERITIES = true
  /\ description (simpleCategorization input) = input
  /\ summary (simpleCategorization input)
     = (if Nat.leb (String.length input) 100 then input
        else substring0 100 input ++ "...")
  /\ String.length (summary (simpleCategorization input)) <= 103
  /\ isGrievanceRecord (toObject (simpleCategorization input)) = true.
Proof.
  assert (Hd : inList (department (simpleCategorization input)) DEPARTMENTS = true).
  { unfold simpleCategorization. cbn [department].
    repeat match goal with
           | |- context [if ?b then _ else _] => destruct b
           end; reflexivity. }
  assert (Hs : inList (severity (simpleCategorization input)) SEVERITIES = true).
  { unfold simpleCategorization. cbn [severity].
    repeat match goal with
           | |- context [if ?b then _ else _] => destruct b
           end; reflexivity. }
  assert (Hsum : summary (simpleCategorization input)
                 = (if Nat.leb (String.length input) 100 then input
                    else substring0 100 input ++ "...")).
  { unfold simpleCategorization. cbn [summary].
    destruct (Nat.leb_spec (String.length input) 100) as [L|L].
    - rewrite (substring0_all 100 input L).
      destruct (Nat.ltb_spec 100 (String.length input)); [lia|]. apply app_empty_r.
    - destruct (Nat.ltb_spec 100 (String.length input)); [reflexivity | lia]. }
  repeat split; try assumption.
  - rewrite Hsum. destruct (Nat.leb_spec (String.length input) 100) as [L|L]; [lia|].
    rewrite length_app_str. pose proof (substring0_length 100 input). simpl. lia.
  - destruct (toObject_fields (simpleCategorization input)) as (Ed & El & Es & Edesc & Esum).
    unfold isGrievanceRecord. now rewrite Ed, El, Es, Edesc, Esum, Hd, Hs.
Qed.

(** X8: the record of the rules.  For every input, department and severity
    are enum members and the description is the input itself; the summary
    is the input when it has at most 100 characters, and else its first 100
    characters followed by three dots, 103 characters in all. *)
Theorem rule_record_shape (input : string) :
  inList (department (simpleCategorization input)) DEPARTMENTS = true
  /\ inList (severity (simpleCategorization input)) SEVERITIES = true
  /\ description (simpleCategorization input) = input
  /\ summary (simpleCategorization input)
     = (if Nat.leb (String.length input) 100 then input
        else substring0 100 input ++ "...")
  /\ String.length (summary (simpleCategorization input)) <= 103
  /\ isGrievanceRecord (toObject (simpleCategorization input)) = true.
Proof. exact (simpleCategorization_shape input). Qed.

Lemma scanWords_prefix (s : string) :
  forall st, exists rest, pendingOf st ++ s = scanWords st s ++ rest.
Proof.
  induction s as [|c t IH]; intros st.
  - exists (pendingOf st). simpl. now rewrite app_empty_r.
  - destruct st as [|p|p]; cbn [pendingOf scanWords append].
    + destruct (isLower c).
      * destruct (IH InWord) as [rest Hr]. cbn [pendingOf append] in Hr.
        exists rest. cbn [append]. now f_equal.
      * destruct (isWhiteSpace c); [|now exists (String c t)].
        destruct (IH (Gap (String c EmptyString))) as [rest Hr].
        cbn [pendingOf append] in Hr. exists rest. exact Hr.
    + destruct (isWhiteSpace c).
      * destruct (IH (Gap (p ++ String c EmptyString))) as [rest Hr].
        cbn [pendingOf] in Hr. exists rest. rewrite <- Hr.
        now rewrite app_assoc_str.
      * destruct (isUpper c); [|now exists (p ++ String c t)].
        destruct (IH (Cap (p ++ String c EmptyString))) as [rest Hr].
        cbn [pendingOf] in Hr. exists rest. rewrite <- Hr.
        now rewrite app_assoc_str.
    + destruct (isLower c); [|now exists (p ++ String c t)].
      destruct (IH InWord) as [rest Hr]. cbn [pendingOf append] in Hr. exists rest.
      rewrite app_assoc_str. cbn [append]. now rewrite <- Hr.
Qed.

Lemma capitalizedWords_sound (s captured : string) :
  capitalizedWords s = Some captured ->
  (exists rest, s = captured ++ rest)
  /\ exists c l tail, captured = String c (String l tail)
                      /\ isUpper c = true /\ isLower l = true.
Proof.
  unfold capitalizedWords. destruct s as [|c [|l t]]; try discriminate.
  destruct (isUpper c) eqn:U; [|discriminate].
  destruct (isLower l) eqn:L; [|discriminate].
  intros H. injection H as <-. split.
  - destruct (scanWords_prefix t InWord) as [rest Hr]. simpl in Hr.
    exists rest. simpl. now rewrite <- Hr.
  - now exists c, l, (scanWords InWord t).
Qed.

Lemma stripPrefix_sound (p s rest : string) :
  stripPrefix p s = Some rest -> s = p ++ rest.
Proof.
  revert s. induction p as [|a p IH]; intros s H.
  - simpl in H. now injection H as <-.
  - destruct s as [|b s']; [discriminate|]. simpl in H.
    destruct (Ascii.eqb_spec a b) as [->|]; [|discriminate].
    simpl. now rewrite (IH s' H).
Qed.

Lemma matchAfter_sound (kw input captured : string) :
  matchAfter kw input = Some captured ->
  occursIn (kw ++ captured) input
  /\ exists c l tail, captured = String c (String l tail)
                      /\ isUpper c = true /\ isLower l = true.
Proof.
  induction input as [|a t IH]; intros H.
  - simpl in H. destruct (stripPrefix kw EmptyString) as [rest|] eqn:E.
    + destruct (capitalizedWords rest) as [cap|] eqn:C; [|discriminate].
      injection H as <-. destruct (capitalizedWords_sound _ _ C) as [[r Hr] Hshape].
      split; [|exact Hshape]. exists EmptyString, r. simpl.
      rewrite (stripPrefix_sound _ _ _ E), Hr. now rewrite app_assoc_str.
    + discriminate.
  - simpl in H.
    destruct (match stripPrefix kw (String a t) with
              | Some rest => capitalizedWords rest
              | None => None
              end) as [cap|] eqn:M.
    + injection H as <-.
      destruct (stripPrefix kw (String a t)) as [rest|] eqn:E; [|discriminate].
      destruct (capitalizedWords_sound _ _ M) as [[r Hr] Hshape].
      split; [|exact Hshape]. exists EmptyString, r. simpl.
      rewrite (stripPrefix_sound _ _ _ E), Hr. now rewrite app_assoc_str.
    + destruct (IH H) as [(before & after & Hocc) Hshape].
      split; [|exact Hshape]. exists (String a before), after. simpl. now rewrite Hocc.
Qed.

Lemma allChars_stripPrefix (p : ascii -> bool) (kw s rest : string) :
  allChars p s = true -> stripPrefix kw s = Some rest -> allChars p rest = true.
Proof.
  intros Hs E. rewrite (stripPrefix_sound _ _ _ E), allChars_app in Hs.
  now apply andb_prop in Hs as [_ Hr].
Qed.

Lemma capitalizedWords_no_capital (s : string) :
  allChars (fun c => negb (isUpper c)) s = true -> capitalizedWords s = None.
Proof.
  intros H. destruct s as [|c [|l r]]; try reflexivity. simpl in H.
  apply andb_prop in H as [Hc _]. apply negb_true_iff in Hc.
  unfold capitalizedWords. now rewrite Hc.
Qed.

Lemma matchAfter_no_capital (kw input : string) :
  allChars (fun c => negb (isUpper c)) input = true -> matchAfter kw input = None.
Proof.
  induction input as [|a t IH]; intros H.
  - simpl. destruct (stripPrefix kw EmptyString) as [rest|] eqn:E; [|reflexivity].
    now rewrite (capitalizedWords_no_capital _ (allChars_stripPrefix _ _ _ _ H E)).
  - simpl. destruct (stripPrefix kw (String a t)) as [rest|] eqn:E.
    + rewrite (capitalizedWords_no_capital _ (allChars_stripPrefix _ _ _ _ H E)).
      apply IH. simpl in H. now apply andb_prop in H as [_ Ht].
    + apply IH. simpl in H. now apply andb_prop in H as [_ Ht].
Qed.

(** X9: the location the rules extract.  It is empty, or it stands in the
    input right after one of the heads in, at, near (with its space) and
    starts with a capital letter followed by a lower-case letter.  An input
    without any capital letter A-Z has no location. *)
Theorem rule_location (input : string) :
  (location (simpleCategorization input) <> EmptyString ->
   (exists kw, In kw locationPatterns
               /\ occursIn (kw ++ location (simpleCategorization input)) input)
   /\ exists c l tail,
        location (simpleCategorization input) = String c (String l tail)
        /\ isUpper c = true /\ isLower l = true)
  /\ (allChars (fun c => negb (isUpper c)) input = true ->
      location (simpleCategorization input) = EmptyString).
Proof.
  unfold simpleCategorization. cbn [location]. split.
  - unfold locationPatterns, firstLocation.
    destruct (matchAfter "in " input) as [c1|] eqn:E1.
    { intros _. destruct (matchAfter_sound _ _ _ E1) as [Hocc Hshape].
      split; [|exact Hshape]. exists "in ". split; [now left | exact Hocc]. }
    destruct (matchAfter "at " input) as [c2|] eqn:E2.
    { intros _. destruct (matchAfter_sound _ _ _ E2) as [Hocc Hshape].
      split; [|exact Hshape]. exists "at ". split; [right; now left | exact Hocc]. }
    destruct (matchAfter "near " input) as [c3|] eqn:E3.
    { intros _. destruct (matchAfter_sound _ _ _ E3) as [Hocc Hshape].
      split; [|exact Hshape]. exists "near ". split; [right; right; now left | exact Hocc]. }
    intros H. now elim H.
  - intros H. unfold locationPatterns, firstLocation.
    now rewrite !(matchAfter_no_capital _ _ H).
Qed.

Lemma rule_location_witness :
  location (simpleCategorization "naala band hai wadala depot ke paas, urgent") = EmptyString.
Proof.
  apply (proj2 (rule_location "naala band hai wadala depot ke paas, urgent")). reflexivity.
Defined.

Lemma validateOutput_present (candidate returned : JsVal) :
  validateOutput candidate = Normal returned ->
  returned = candidate /\ requiredFieldsPresent returned = true.
Proof.
  unfold validateOutput, requiredFieldsPresent. intros H.
  destruct (truthy (prop "department" candidate)) eqn:D; [|discriminate].
  destruct (truthy (prop "severity" candidate)) eqn:S; [|discriminate].
  destruct (truthy (prop "description" candidate)) eqn:De; [|discriminate].
  destruct (truthy (prop "summary" candidate)) eqn:Su; [|discriminate].
  injection H as <-. now rewrite D, S, De, Su.
Qed.

Lemma callFineTunedLLM_present (env : Env) (net : Network) (userInput : JsVal)
    (model : LLMModel) (returned : JsVal) :
  callFineTunedLLM env net userInput model = Normal returned ->
  requiredFieldsPresent returned = true.
Proof.
  intros H. unfold callFineTunedLLM in H.
  destruct (net _) as [e|status body]; [discriminate|].
  destruct (negb (ok status)); [discriminate|].
  destruct (responseJson body) as [result|e]; [|discriminate].
  unfold handleResult in H.
  destruct (raise (get "model_used" result)); cbn [bind] in H; [|discriminate].
  destruct (negb (truthy (prop "success" result))).
  { unfold throwNewError in H. destruct (orElse _ _); discriminate. }
  destruct (parseGenerated _) as [candidate|e]; cbn [bind] in H; [|discriminate].
  now apply validateOutput_present in H.
Qed.

(** X10: categorizeWithFallback never throws.  It returns what
    callFineTunedLLM returns, and when that call throws, the record of the
    rules, whose description is the input.  For a non-empty input the four
    required fields of the result are non-empty in both cases. *)
Theorem fallback_always_answers (env : Env) (net : Network) (userInput : string)
    (model : LLMModel) :
  exists answer,
    categorizeWithFallback env net userInput model = Normal answer
    /\ (forall returned,
          callFineTunedLLM env net (JStr userInput) model = Normal returned ->
          answer = returned)
    /\ (forall e,
          callFineTunedLLM env net (JStr userInput) model = Throw e ->
          answer = toObject (simpleCategorization userInput)
          /\ prop "description" answer = JStr userInput
          /\ isGrievanceRecord answer = true)
    /\ (userInput <> EmptyString -> requiredFieldsPresent answer = true).
Proof.
  unfold categorizeWithFallback.
  destruct (callFineTunedLLM env net (JStr userInput) model) as [v|e] eqn:E.
  - exists v. repeat split.
    + intros returned H. now injection H.
    + discriminate.
    + discriminate.
    + discriminate.
    + intros _. exact (callFineTunedLLM_present _ _ _ _ _ E).
  - exists (toObject (simpleCategorization userInput)). repeat split.
    + discriminate.
    + apply simpleCategorization_shape.
    + intros Hne. unfold requiredFieldsPresent.
      destruct (toObject_fields (simpleCategorization userInput))
        as (Ed & _ & Es & Edesc & Esum).
      rewrite Ed, Es, Edesc, Esum. cbn [truthy].
      destruct (simpleCategorization_shape userInput) as (Hd & Hs & _).
      rewrite (inList_nonempty _ _ Hd eq_refl), (inList_nonempty _ _ Hs eq_refl).
      destruct userInput as [|c t]; [congruence|]. reflexivity.
Qed.

Lemma fallback_always_answers_witness :
  exists answer,
    categorizeWithFallback env0 refuse "Paani nahi aa raha in Juhu" qwen = Normal answer
    /\ requiredFieldsPresent answer = true.
Proof.
  destruct (fallback_always_answers env0 refuse "Paani nahi aa raha in Juhu" qwen)
    as (answer & Ha & _ & _ & Hp).
  exists answer. split; [exact Ha|]. apply Hp. discriminate.
Defined.

(** ** Health probes and the other service clients *)

Lemma healthy_match {A : Type} (status : JsVal) (a b : A) :
  match status with
  | JStr "healthy" => a
  | _ => b
  end
  = if match status with JStr s => String.eqb s "healthy" | _ => false end then a else b.
Proof.
  destruct status as [| | | |s| |]; try reflexivity.
  do 7 (destruct s as [|[[] [] [] [] [] [] [] []] s]; try reflexivity).
  destruct s; reflexivity.
Qed.

(** X11: checkLocalWhisperHealth never throws, and what it returns is truthy
    exactly when the body of the reply, whatever its status code, decodes to
    a value whose status is the string healthy and whose model_loaded is
    truthy.  A rejected fetch or a body that is not JSON gives false. *)
Theorem whisper_health_verdict (env : Env) (net : Network) :
  exists verdict,
    WhisperLocal.checkLocalWhisperHealth env net = Normal verdict
    /\ (truthy verdict = true <->
        exists status body data,
          net (WhisperLocal.healthRequest env) = Responded status body
          /\ JSON_parse body = Some data
          /\ prop "status" data = JStr "healthy"
          /\ truthy (prop "model_loaded" data) = true).
Proof.
  unfold WhisperLocal.checkLocalWhisperHealth.
  destruct (net (WhisperLocal.healthRequest env)) as [e|status body] eqn:Hnet.
  { exists (JBool false). split; [reflexivity|]. split; [discriminate|].
    intros (s & b & d & H & _). discriminate. }
  unfold responseJson. destruct (JSON_parse body) as [data|] eqn:Hbody.
  2:{ exists (JBool false). split; [reflexivity|]. split; [discriminate|].
      intros (s & b & d & H & Hd & _). injection H as <- <-. congruence. }
  cbn [bind]. destruct data as [| |b|n|s|items|fields];
    try (exists (JBool false); split; [reflexivity|]; split; [discriminate|];
         intros (s' & b' & d & H & Hd & Hst & _); injection H as <- <-;
         rewrite Hbody in Hd; injection Hd as <-; discriminate Hst).
  cbn [get]. rewrite healthy_match.
  destruct (prop "status" (JObj fields)) as [| | | |s| |] eqn:Hst;
    try (exists (JBool false); split; [reflexivity|]; split; [discriminate|];
         intros (s' & b' & d & H & Hd & Hst' & _); injection H as <- <-;
         rewrite Hbody in Hd; injection Hd as <-; congruence).
  destruct (String.eqb_spec s "healthy") as [->|Hne].
  - exists (prop "model_loaded" (JObj fields)). split; [reflexivity|]. split.
    + intros Ht. now exists status, body, (JObj fields).
    + intros (s' & b' & d & H & Hd & _ & Hm). injection H as <- <-.
      rewrite Hbody in Hd. now injection Hd as <-.
  - exists (JBool false). split; [reflexivity|]. split; [discriminate|].
    intros (s' & b' & d & H & Hd & Hst' & _). injection H as <- <-.
    rewrite Hbody in Hd. injection Hd as <-. congruence.
Qed.

Lemma whisper_health_verdict_witness :
  exists verdict,
    WhisperLocal.checkLocalWhisperHealth env0
      (fun _ => Responded 500 (quoted "{'status':'healthy','model_loaded':true}"))
    = Normal verdict
    /\ truthy verdict = true.
Proof.
  destruct (whisper_health_verdict env0
              (fun _ => Responded 500 (quoted "{'status':'healthy','model_loaded':true}")))
    as (verdict & Hv & Hiff).
  exists verdict. split; [exact Hv|]. apply Hiff.
  exists 500%N, (quoted "{'status':'healthy','model_loaded':true}"),
         (JObj [("status", JStr "healthy"); ("model_loaded", JBool true)]).
  repeat split.
Defined.

(** X12: checkLocalGrievanceHealth never throws and returns a boolean: true
    exactly when the body of the reply, whatever its status code, decodes to
    a value whose status is the string healthy. *)
Theorem grievance_health_verdict (env : Env) (net : Network) :
  exists healthy : bool,
    GrievanceClients.checkLocalGrievanceHealth env net = Normal (JBool healthy)
    /\ (healthy = true <->
        exists status body data,
          net (GrievanceClients.grievanceHealthRequest env) = Responded status body
          /\ JSON_parse body = Some data
          /\ prop "status" data = JStr "healthy").
Proof.
  unfold GrievanceClients.checkLocalGrievanceHealth.
  destruct (net (GrievanceClients.grievanceHealthRequest env)) as [e|status body] eqn:Hnet.
  { exists false. split; [reflexivity|]. split; [discriminate|].
    intros (s & b & d & H & _). discriminate. }
  unfold responseJson. destruct (JSON_parse body) as [data|] eqn:Hbody.
  2:{ exists false. split; [reflexivity|]. split; [discriminate|].
      intros (s & b & d & H & Hd & _). injection H as <- <-. congruence. }
  cbn [bind]. destruct data as [| |b|n|s|items|fields];
    try (exists false; split; [reflexivity|]; split; [discriminate|];
         intros (s' & b' & d & H & Hd & Hst); injection H as <- <-;
         rewrite Hbody in Hd; injection Hd as <-; discriminate Hst).
  cbn [get tryCatch].
  destruct (prop "status" (JObj fields)) as [| | | |s| |] eqn:Hst;
    try (exists false; split; [reflexivity|]; split; [discriminate|];
         intros (s' & b' & d & H & Hd & Hst'); injection H as <- <-;
         rewrite Hbody in Hd; injection Hd as <-; congruence).
  exists (String.eqb s "healthy"). split; [reflexivity|]. split.
  - intros E. apply String.eqb_eq in E. subst s. now exists status, body, (JObj fields).
  - intros (s' & b' & d & H & Hd & Hst'). injection H as <- <-.
    rewrite Hbody in Hd. injection Hd as <-. rewrite Hst in Hst'. injection Hst' as ->.
    reflexivity.
Qed.

Lemma client_outcome (net : Network) (req : Request) (failure : Thrown -> JsVal) :
  exists r,
    tryCatch (WhisperLocal.fetchJson net req) (fun error => Normal (failure error))
    = (Normal r : Completion Thrown JsVal)
    /\ (fetchFails (net req) = true -> exists error, r = failure error).
Proof.
  pose proof (fetchJson_outcome net req) as H.
  destruct (fetchFails (net req)).
  - destruct H as [e ->]. exists (failure e). split; [reflexivity|]. intros _. now exists e.
  - destruct H as (v & _ & ->). exists v. split; [reflexivity | discriminate].
Qed.

(** X13: the other clients of the transcription server never throw either.
    summarizeTextLocal and transcribeAudioFileLocal return their failure
    object (success false, empty text, an error string) when the fetch
    rejects, the status is not 2xx or the body is not JSON.
    transcribeAudioBase64Local does the same, and when the file reader
    fails it returns the failure object with the error Unknown error.  The
    summary request never carries a falsy max_length: a length that is left
    out, or zero, is sent as 130. *)
Theorem other_whisper_clients_never_throw (env : Env) (net : Network)
    (reader : WhisperClients.FileReader) (text maxLength : JsVal) (file audioBlob : Blob) :
  (exists r,
      WhisperClients.summarizeTextLocal env net text maxLength = Normal r
      /\ (fetchFails (net (WhisperClients.summarizeRequest env text maxLength)) = true ->
          exists msg,
            r = JObj [("summary_text", JStr ""); ("success", JBool false);
                      ("error", JStr msg)]))
  /\ (exists limit,
        body (WhisperClients.summarizeRequest env text maxLength)
        = JsonBody (JObj [("text", text); ("max_length", limit);
                          ("min_length", WhisperClients.number 30)])
        /\ truthy limit = true
        /\ (truthy maxLength = false -> limit = WhisperClients.number 130)
        /\ (truthy maxLength = true -> limit = maxLength))
  /\ (exists r,
        WhisperClients.transcribeAudioFileLocal env net file = Normal r
        /\ (fetchFails (net (WhisperClients.transcribeFileRequest env file)) = true ->
            exists msg,
              r = JObj [("text", JStr ""); ("success", JBool false); ("error", JStr msg)]))
  /\ (exists r,
        WhisperClients.transcribeAudioBase64Local env net reader audioBlob = Normal r
        /\ (reader audioBlob = None ->
            r = JObj [("text", JStr ""); ("success", JBool false);
                      ("error", JStr "Unknown error")])
        /\ (forall base64Audio,
              WhisperClients.blobToBase64 reader audioBlob = Normal base64Audio ->
              fetchFails (net (WhisperClients.base64Request env base64Audio)) = true ->
              exists msg,
                r = JObj [("text", JStr ""); ("success", JBool false);
                          ("error", JStr msg)])).
Proof.
  split; [|split; [|split]].
  - unfold WhisperClients.summarizeTextLocal.
    destruct (client_outcome net (WhisperClients.summarizeRequest env text maxLength)
                WhisperClients.summaryFailure) as (r & -> & Hf).
    exists r. split; [reflexivity|]. intros F. destruct (Hf F) as [e ->]. eexists. reflexivity.
  - exists (orElse maxLength (WhisperClients.number 130)). split; [reflexivity|].
    unfold orElse. destruct (truthy maxLength) eqn:T; repeat split; try discriminate.
    exact T.
  - unfold WhisperClients.transcribeAudioFileLocal.
    destruct (client_outcome net (WhisperClients.transcribeFileRequest env file)
                WhisperLocal.transcriptionFailure) as (r & -> & Hf).
    exists r. split; [reflexivity|]. intros F. destruct (Hf F) as [e ->]. eexists. reflexivity.
  - unfold WhisperClients.transcribeAudioBase64Local.
    destruct (WhisperClients.blobToBase64 reader audioBlob) as [b64|e] eqn:B.
    + cbn [bind].
      destruct (client_outcome net (WhisperClients.base64Request env b64)
                  WhisperLocal.transcriptionFailure) as (r & -> & Hf).
      exists r. split; [reflexivity|]. split.
      * intros Hr. unfold WhisperClients.blobToBase64 in B. rewrite Hr in B. discriminate.
      * intros b H F. injection H as <-. destruct (Hf F) as [e ->]. eexists. reflexivity.
    + cbn [bind tryCatch]. eexists. split; [reflexivity|]. split.
      * intros Hr. unfold WhisperClients.blobToBase64 in B. rewrite Hr in B.
        injection B as <-. reflexivity.
      * discriminate.
Qed.

Lemma other_whisper_clients_never_throw_witness :
  exists limit,
    body (WhisperClients.summarizeRequest env0 (JStr "lamba complaint")
            (WhisperClients.number 0))
    = JsonBody (JObj [("text", JStr "lamba complaint"); ("max_length", limit);
                      ("min_length", WhisperClients.number 30)])
    /\ limit = WhisperClients.number 130.
Proof.
  destruct (proj1 (proj2 (other_whisper_clients_never_throw env0 refuse (fun _ => None)
                            (JStr "lamba complaint") (WhisperClients.number 0)
                            EmptyString EmptyString)))
    as (limit & Hb & _ & Hzero & _).
  exists limit. split; [exact Hb|]. apply Hzero. reflexivity.
Defined.

(** X14: the other clients of the grievance server never throw.
    generateGrievanceResponseLocal and processGrievanceLocal return the
    failure object (success false, empty text and generated_text, an error
    string) when the fetch rejects, the status is not 2xx or the body is not
    JSON; a model left out is sent as mistral. *)
Theorem other_grievance_clients_never_throw (env : Env) (net : Network) (text : JsVal)
    (model : option LLMModel) :
  (exists r,
      GrievanceClients.generateGrievanceResponseLocal env net text model = Normal r
      /\ (fetchFails (net (GrievanceClients.textModelRequest env "/generate-response"
                             text model)) = true ->
          exists msg,
            r = JObj [("text", JStr ""); ("generated_text", JStr "");
                      ("success", JBool false); ("error", JStr msg)]))
  /\ (exists r,
        GrievanceClients.processGrievanceLocal env net text model = Normal r
        /\ (fetchFails (net (GrievanceClients.textModelRequest env "/process" text model))
            = true ->
            exists msg,
              r = JObj [("text", JStr ""); ("generated_text", JStr "");
                        ("success", JBool false); ("error", JStr msg)]))
  /\ (model = None ->
      body (GrievanceClients.textModelRequest env "/process" text model)
      = JsonBody (JObj [("text", text); ("model", JStr "mistral")])).
Proof.
  split; [|split].
  - unfold GrievanceClients.generateGrievanceResponseLocal.
    destruct (client_outcome net
                (GrievanceClients.textModelRequest env "/generate-response" text model)
                GrievanceLocal.categorizationFailure) as (r & -> & Hf).
    exists r. split; [reflexivity|]. intros F. destruct (Hf F) as [e ->]. eexists. reflexivity.
  - unfold GrievanceClients.processGrievanceLocal.
    destruct (client_outcome net
                (GrievanceClients.textModelRequest env "/process" text model)
                GrievanceLocal.categorizationFailure) as (r & -> & Hf).
    exists r. split; [reflexivity|]. intros F. destruct (Hf F) as [e ->]. eexists. reflexivity.
  - intros ->. reflexivity.
Qed.

Lemma other_grievance_clients_never_throw_witness :
  exists msg,
    GrievanceClients.processGrievanceLocal env0 (fun _ => Responded 200 "<html>") 
      (JStr "kachra") None
    = Normal (JObj [("text", JStr ""); ("generated_text", JStr "");
                    ("success", JBool false); ("error", JStr msg)]).
Proof.
  destruct (proj1 (proj2 (other_grievance_clients_never_throw env0
                            (fun _ => Responded 200 "<html>") (JStr "kachra") None)))
    as (r & Hr & Hfail).
  destruct (Hfail eq_refl) as [msg Hmsg].
  exists msg. rewrite Hr, Hmsg. reflexivity.
Defined.

(** ** handleTranscribe and processWithAI *)

Lemma handleTranscribe_reaches_ai (env : Env) (net : Network)
    (processWithAI : JsVal -> ComplaintForm.State -> ComplaintForm.State)
    (audio : Blob) (st : ComplaintForm.State)
    (health result translationResult finalText : JsVal) :
  WhisperLocal.checkLocalWhisperHealth env net = Normal health ->
  truthy health = true ->
  WhisperLocal.transcribeAudioLocal env net audio = Normal result ->
  truthy (prop "success" result) = true ->
  WhisperLocal.translateToEnglishLocal env net (prop "text" result)
  = Normal translationResult ->
  ComplaintForm.chooseFinalText (prop "text" result) translationResult = Normal finalText ->
  ComplaintForm.handleTranscribe env net processWithAI audio st
  = ComplaintForm.setIsTranscribing false
      (if ComplaintForm.useAIAutofill st
       then processWithAI finalText
              (ComplaintForm.toast (ComplaintForm.mkToast "Transcription complete" false)
                 (ComplaintForm.setFormDescription finalText
                    (ComplaintForm.setTranscription (prop "text" result)
                       (ComplaintForm.setIsTranscribing true st))))
       else ComplaintForm.toast (ComplaintForm.mkToast "Transcription complete" false)
              (ComplaintForm.setFormDescription finalText
                 (ComplaintForm.setTranscription (prop "text" result)
                    (ComplaintForm.setIsTranscribing true st)))).
Proof.
  intros Hh Hht Ht Hs Htr Hfinal.
  unfold ComplaintForm.handleTranscribe, ComplaintForm.transcribeBody.
  rewrite Hh, Hht, Ht. cbn [negb].
  destruct result as [| | | | |items|fields]; try discriminate Hs.
  cbn [get]. rewrite Hs. cbn [negb]. rewrite Htr, Hfinal.
  destruct st as [fd it ai tr0 ts].
  cbn [ComplaintForm.useAIAutofill ComplaintForm.setIsTranscribing].
  destruct ai; reflexivity.
Qed.

(** X15: a failure before the translation loses nothing.  When the health
    probe is falsy, or the probe is truthy and the transcription comes back
    without a truthy success (or as null), handleTranscribe leaves the form
    data and the stored transcription as they were, adds one destructive
    toast, resets the busy flag, and never calls processWithAI. *)
Theorem early_failure_keeps_form (env : Env) (net : Network)
    (processWithAI : JsVal -> ComplaintForm.State -> ComplaintForm.State)
    (audio : Blob) (st : ComplaintForm.State) (health : JsVal) :
  WhisperLocal.checkLocalWhisperHealth env net = Normal health ->
  (truthy health = false ->
   ComplaintForm.handleTranscribe env net processWithAI audio st
   = ComplaintForm.mkState (ComplaintForm.formData st) false
       (ComplaintForm.useAIAutofill st) (ComplaintForm.transcription st)
       (ComplaintForm.toasts st
        ++ [ComplaintForm.mkToast "Local Whisper Server Required" true]))
  /\ (forall result,
        truthy health = true ->
        WhisperLocal.transcribeAudioLocal env net audio = Normal result ->
        truthy (prop "success" result) = false ->
        ComplaintForm.handleTranscribe env net processWithAI audio st
        = ComplaintForm.mkState (ComplaintForm.formData st) false
            (ComplaintForm.useAIAutofill st) (ComplaintForm.transcription st)
            (ComplaintForm.toasts st ++ [ComplaintForm.mkToast "Transcription failed" true])).
Proof.
  intros Hh. split.
  - intros Hf. unfold ComplaintForm.handleTranscribe, ComplaintForm.transcribeBody.
    rewrite Hh, Hf. reflexivity.
  - intros result Ht Hr Hs.
    unfold ComplaintForm.handleTranscribe, ComplaintForm.transcribeBody.
    rewrite Hh, Ht, Hr. cbn [negb].
    destruct result as [| |b|n|s|items|fields]; try reflexivity;
      cbn [get]; rewrite Hs; reflexivity.
Qed.

Lemma early_failure_keeps_form_witness :
  ComplaintForm.handleTranscribe env0 refuse (fun _ s => s) EmptyString
    ComplaintForm.initialState
  = ComplaintForm.mkState (ComplaintForm.formData ComplaintForm.initialState) false true
      (JStr "") [ComplaintForm.mkToast "Local Whisper Server Required" true].
Proof.
  apply (proj1 (early_failure_keeps_form env0 refuse (fun _ s => s) EmptyString
                  ComplaintForm.initialState (JBool false) eq_refl)).
  reflexivity.
Defined.

(** X16: a translation that worked is used.  When the translation result
    has a truthy success and a truthy translated_text, that text is the
    final text: it is written to the description of the form and it is
    what processWithAI is called on, while the stored transcription keeps
    the untranslated text. *)
Theorem translation_success_used (env : Env) (net : Network)
    (processWithAI : JsVal -> ComplaintForm.State -> ComplaintForm.State)
    (audio : Blob) (st : ComplaintForm.State) (health result translationResult : JsVal) :
  WhisperLocal.checkLocalWhisperHealth env net = Normal health ->
  truthy health = true ->
  WhisperLocal.transcribeAudioLocal env net audio = Normal result ->
  truthy (prop "success" result) = true ->
  WhisperLocal.translateToEnglishLocal env net (prop "text" result)
  = Normal translationResult ->
  truthy (prop "success" translationResult) = true ->
  truthy (prop "translated_text" translationResult) = true ->
  ComplaintForm.handleTranscribe env net processWithAI audio st
  = ComplaintForm.setIsTranscribing false
      (if ComplaintForm.useAIAutofill st
       then processWithAI (prop "translated_text" translationResult)
              (ComplaintForm.mkState
                 (ComplaintForm.mkFormData
                    (prop "translated_text" translationResult)
                    (ComplaintForm.location (ComplaintForm.formData st))
                    (ComplaintForm.severity (ComplaintForm.formData st))
                    (ComplaintForm.department_id (ComplaintForm.formData st))
                    (ComplaintForm.summary (ComplaintForm.formData st))
                    (ComplaintForm.llm_model_used (ComplaintForm.formData st)))
                 true (ComplaintForm.useAIAutofill st) (prop "text" result)
                 (ComplaintForm.toasts st
                  ++ [ComplaintForm.mkToast "Transcription complete" false]))
       else ComplaintForm.mkState
              (ComplaintForm.mkFormData
                 (prop "translated_text" translationResult)
                 (ComplaintForm.location (ComplaintForm.formData st))
                 (ComplaintForm.severity (ComplaintForm.formData st))
                 (ComplaintForm.department_id (ComplaintForm.formData st))
                 (ComplaintForm.summary (ComplaintForm.formData st))
                 (ComplaintForm.llm_model_used (ComplaintForm.formData st)))
              true (ComplaintForm.useAIAutofill st) (prop "text" result)
              (ComplaintForm.toasts st
               ++ [ComplaintForm.mkToast "Transcription complete" false])).
Proof.
  intros Hh Hht Ht Hs Htr Hts Htt.
  assert (Hfinal : ComplaintForm.chooseFinalText (prop "text" result) translationResult
                   = Normal (prop "translated_text" translationResult)).
  { unfold ComplaintForm.chooseFinalText.
    destruct translationResult; try discriminate Hts.
    cbn [get bind]. now rewrite Hts, Htt. }
  rewrite (handleTranscribe_reaches_ai _ _ _ _ _ _ _ _ _ Hh Hht Ht Hs Htr Hfinal).
  reflexivity.
Qed.

Lemma translation_success_used_witness :
  ComplaintForm.description
    (ComplaintForm.formData
       (ComplaintForm.handleTranscribe env0
          (SamplesExtra.pipeline "paani nahi aa raha" "Water is not coming" 500 "down")
          (fun _ s => s) EmptyString ComplaintForm.initialState))
  = JStr "Water is not coming".
Proof.
  rewrite (translation_success_used env0
             (SamplesExtra.pipeline "paani nahi aa raha" "Water is not coming" 500 "down")
             (fun _ s => s) EmptyString ComplaintForm.initialState
             (JBool true)
             (JObj [("text", JStr "paani nahi aa raha"); ("success", JBool true)])
             (JObj [("translated_text", JStr "Water is not coming");
                    ("original_text", JStr "paani nahi aa raha");
                    ("success", JBool true)])
             eq_refl eq_refl eq_refl eq_refl eq_refl eq_refl eq_refl).
  reflexivity.
Defined.

Lemma prefix_iff (a b : string) :
  prefix a b = true <-> exists rest, b = a ++ rest.
Proof.
  revert b. induction a as [|c a IH]; intros b.
  - split; [intros _; now exists b | intros _; now destruct b].
  - destruct b as [|d b]; simpl.
    + split; [discriminate | intros [rest H]; discriminate].
    + destruct (Ascii.ascii_dec c d) as [->|Hne].
      * rewrite IH. split; intros [rest H]; exists rest; [now rewrite H | now injection H].
      * split; [discriminate | intros [rest H]; injection H as H' _; congruence].
Qed.

Lemma includes_iff (needle hay : string) :
  includes needle hay = true <-> occursIn needle hay.
Proof.
  unfold occursIn. induction hay as [|c t IH].
  - destruct needle as [|a n]; simpl.
    + split; [intros _; now exists EmptyString, EmptyString | reflexivity].
    + split; [discriminate | intros (before & after & H); destruct before; discriminate].
  - cbn [includes]. rewrite orb_true_iff, prefix_iff, IH. split.
    + intros [[rest H] | (before & after & H)].
      * now exists EmptyString, rest.
      * exists (String c before), after. simpl. now rewrite H.
    + intros (before & after & H). destruct before as [|d before].
      * left. now exists after.
      * right. simpl in H. injection H as _ H. now exists before, after.
Qed.

Lemma includes_within (keyword phrase hay : string) :
  occursIn keyword phrase -> includes phrase hay = true -> includes keyword hay = true.
Proof.
  intros (b1 & a1 & ->) H. apply includes_iff in H as (b2 & a2 & ->).
  apply includes_iff. exists (b2 ++ b1), (a1 ++ a2).
  now rewrite !app_assoc_str.
Qed.

Lemma deptMapping_keyword (dept keyword : string) :
  AutoFill.deptMapping dept = Some keyword ->
  occursIn keyword (AutoFill.replaceUnderscores dept).
Proof.
  unfold AutoFill.deptMapping.
  destruct (String.eqb_spec dept "roads_and_traffic") as [->|_].
  { intros H. injection H as <-. now exists EmptyString, " and traffic". }
  destruct (String.eqb_spec dept "water_supply") as [->|_].
  { intros H. injection H as <-. now exists EmptyString, " supply". }
  destruct (String.eqb_spec dept "solid_waste_management") as [->|_]; [|discriminate].
  intros H. injection H as <-. now exists "solid ", " management".
Qed.

Lemma findDepartment_enum (stringOf : JsVal -> string)
    (objectPrototypeText : string -> option string)
    (dept keyword : string) (ds : list AutoFill.Department) :
  AutoFill.deptMapping dept = Some keyword ->
  AutoFill.findDepartment stringOf objectPrototypeText (JStr dept) ds
  = Normal (firstNamed keyword ds).
Proof.
  intros Hk. pose proof (deptMapping_keyword _ _ Hk) as Hocc.
  induction ds as [|d rest IH]; [reflexivity|].
  cbn [AutoFill.findDepartment]. unfold AutoFill.nameMatches, AutoFill.keywordText.
  cbn [AutoFill.propertyKey]. rewrite Hk. unfold firstNamed. cbn [find].
  destruct (includes keyword (toLowerCase (AutoFill.name d))) eqn:E; [reflexivity|].
  cbn [bind].
  destruct (includes (AutoFill.replaceUnderscores dept) (toLowerCase (AutoFill.name d)))
    eqn:E2.
  - rewrite (includes_within _ _ _ Hocc E2) in E. discriminate.
  - exact IH.
Qed.

(** X17: when the categorization call throws, processWithAI leaves the form
    data untouched: the state gains the toasts AI Processing and AI
    Processing Failed (destructive), the busy flag ends false, and nothing
    else changes. *)
Theorem ai_failure_keeps_form (stringOf : JsVal -> string)
    (objectPrototypeText : string -> option string) (env : Env) (net : Network)
    (grievanceText : JsVal) (st : AutoFill.AIState) (e : LlmThrown) :
  callFineTunedLLM env net grievanceText (AutoFill.selectedLLMModel st) = Throw e ->
  AutoFill.processWithAI stringOf objectPrototypeText env net grievanceText st
  = AutoFill.mkAIState
      (ComplaintForm.mkState
         (ComplaintForm.formData (AutoFill.component st))
         (ComplaintForm.isTranscribing (AutoFill.component st))
         (ComplaintForm.useAIAutofill (AutoFill.component st))
         (ComplaintForm.transcription (AutoFill.component st))
         ((ComplaintForm.toasts (AutoFill.component st)
           ++ [ComplaintForm.mkToast "AI Processing" false])
          ++ [ComplaintForm.mkToast "AI Processing Failed" true]))
      (AutoFill.departments st) (AutoFill.selectedLLMModel st) false.
Proof.
  intros H. unfold AutoFill.processWithAI.
  cbn [AutoFill.selectedLLMModel AutoFill.setIsProcessingAI AutoFill.aiToast].
  rewrite H. reflexivity.
Qed.

Lemma ai_failure_keeps_form_witness :
  ComplaintForm.formData
    (AutoFill.component
       (AutoFill.processWithAI SamplesExtra.noText SamplesExtra.noInherited env0 refuse
          (JStr "paani nahi aa raha")
          (AutoFill.mkAIState ComplaintForm.initialState SamplesExtra.cityDepartments
                              llama false)))
  = ComplaintForm.formData ComplaintForm.initialState.
Proof.
  rewrite (ai_failure_keeps_form SamplesExtra.noText SamplesExtra.noInherited env0 refuse
             (JStr "paani nahi aa raha")
             (AutoFill.mkAIState ComplaintForm.initialState SamplesExtra.cityDepartments
                                 llama false)
             (Raised (IsError (typeError "Failed to fetch"))) eq_refl).
  reflexivity.
Defined.

(** X18: when the categorization call returns a record whose department is
    one of the three enum values, processWithAI writes the record's
    description, severity and summary and the model chosen to the form,
    keeps the location of the form when the record's location is empty, and
    selects the first loaded department whose lower-cased name holds the
    keyword of the enum value (roads, water, waste), keeping the department
    of the form when no name does. *)
Theorem ai_success_fills_form (stringOf : JsVal -> string)
    (objectPrototypeText : string -> option string) (env : Env) (net : Network)
    (grievanceText : JsVal) (st : AutoFill.AIState) (llmOutput : JsVal)
    (dept keyword : string) :
  callFineTunedLLM env net grievanceText (AutoFill.selectedLLMModel st) = Normal llmOutput ->
  prop "department" llmOutput = JStr dept ->
  AutoFill.deptMapping dept = Some keyword ->
  AutoFill.processWithAI stringOf objectPrototypeText env net grievanceText st
  = AutoFill.mkAIState
      (ComplaintForm.mkState
         (ComplaintForm.mkFormData
            (prop "description" llmOutput)
            (orElse (prop "location" llmOutput)
                    (ComplaintForm.location (ComplaintForm.formData (AutoFill.component st))))
            (prop "severity" llmOutput)
            (orElse (match firstNamed keyword (AutoFill.departments st) with
                     | Some d => JStr (AutoFill.id d)
                     | None => JUndefined
                     end)
                    (ComplaintForm.department_id
                       (ComplaintForm.formData (AutoFill.component st))))
            (prop "summary" llmOutput)
            (JStr (AutoFill.modelValue (AutoFill.selectedLLMModel st))))
         (ComplaintForm.isTranscribing (AutoFill.component st))
         (ComplaintForm.useAIAutofill (AutoFill.component st))
         (ComplaintForm.transcription (AutoFill.component st))
         ((ComplaintForm.toasts (AutoFill.component st)
           ++ [ComplaintForm.mkToast "AI Processing" false])
          ++ [ComplaintForm.mkToast "AI Auto-fill Complete" false]))
      (AutoFill.departments st) (AutoFill.selectedLLMModel st) false.
Proof.
  intros H Hd Hk. unfold AutoFill.processWithAI.
  cbn [AutoFill.selectedLLMModel AutoFill.setIsProcessingAI AutoFill.aiToast
       AutoFill.departments].
  rewrite H.
  destruct llmOutput as [| | | | |items|fields]; try discriminate Hd.
  cbn [get]. rewrite Hd, (findDepartment_enum _ _ _ _ _ Hk). reflexivity.
Qed.

Lemma ai_success_fills_form_witness :
  ComplaintForm.department_id
    (ComplaintForm.formData
       (AutoFill.component
          (AutoFill.processWithAI SamplesExtra.noText SamplesExtra.noInherited env0
             (respond (reply validLiteral)) (JStr "pipe phat gaya Juhu mein")
             (AutoFill.mkAIState ComplaintForm.initialState SamplesExtra.cityDepartments
                                 llama false))))
  = JStr "d-2".
Proof.
  rewrite (ai_success_fills_form SamplesExtra.noText SamplesExtra.noInherited env0
             (respond (reply validLiteral)) (JStr "pipe phat gaya Juhu mein")
             (AutoFill.mkAIState ComplaintForm.initialState SamplesExtra.cityDepartments
                                 llama false)
             (JObj validFields) "water_supply" "water" eq_refl eq_refl eq_refl).
  reflexivity.
Defined.

(** X19: the voice pipeline end to end when the categorization fails.  With
    AI auto-fill on, a healthy transcription server, a transcription that
    succeeded and a final text chosen after the translation, a throwing
    callFineTunedLLM leaves the final text as the description of the form;
    the other form fields are as before, the transcription holds the
    untranslated text, and the toasts added are Transcription complete, AI
    Processing and the destructive AI Processing Failed. *)
Theorem voice_pipeline_ai_failure (stringOf : JsVal -> string)
    (objectPrototypeText : string -> option string) (env : Env) (net : Network)
    (ds : list AutoFill.Department) (model : LLMModel) (audio : Blob)
    (st : ComplaintForm.State) (health result translationResult finalText : JsVal)
    (e : LlmThrown) :
  WhisperLocal.checkLocalWhisperHealth env net = Normal health ->
  truthy health = true ->
  WhisperLocal.transcribeAudioLocal env net audio = Normal result ->
  truthy (prop "success" result) = true ->
  WhisperLocal.translateToEnglishLocal env net (prop "text" result)
  = Normal translationResult ->
  ComplaintForm.chooseFinalText (prop "text" result) translationResult = Normal finalText ->
  ComplaintForm.useAIAutofill st = true ->
  callFineTunedLLM env net finalText model = Throw e ->
  ComplaintForm.handleTranscribe env net
    (AutoFill.autoFill stringOf objectPrototypeText env net ds model) audio st
  = ComplaintForm.mkState
      (ComplaintForm.mkFormData
         finalText
         (ComplaintForm.location (ComplaintForm.formData st))
         (ComplaintForm.severity (ComplaintForm.formData st))
         (ComplaintForm.department_id (ComplaintForm.formData st))
         (ComplaintForm.summary (ComplaintForm.formData st))
         (ComplaintForm.llm_model_used (ComplaintForm.formData st)))
      false true (prop "text" result)
      (((ComplaintForm.toasts st
         ++ [ComplaintForm.mkToast "Transcription complete" false])
        ++ [ComplaintForm.mkToast "AI Processing" false])
       ++ [ComplaintForm.mkToast "AI Processing Failed" true]).
Proof.
  intros Hh Hht Ht Hs Htr Hfinal Hai Hllm.
  rewrite (handleTranscribe_reaches_ai _ _ _ _ _ _ _ _ _ Hh Hht Ht Hs Htr Hfinal), Hai.
  unfold AutoFill.autoFill, AutoFill.processWithAI.
  cbn [AutoFill.selectedLLMModel AutoFill.setIsProcessingAI AutoFill.aiToast].
  rewrite Hllm. destruct st as [fd it ai tr0 ts]. simpl in Hai. subst ai. reflexivity.
Qed.

Lemma voice_pipeline_ai_failure_witness :
  ComplaintForm.description
    (ComplaintForm.formData
       (ComplaintForm.handleTranscribe env0
          (SamplesExtra.pipeline "paani nahi aa raha" "Water is not coming" 500 "down")
          (AutoFill.autoFill SamplesExtra.noText SamplesExtra.noInherited env0
             (SamplesExtra.pipeline "paani nahi aa raha" "Water is not coming" 500 "down")
             SamplesExtra.cityDepartments llama)
          EmptyString ComplaintForm.initialState))
  = JStr "Water is not coming".
Proof.
  rewrite (voice_pipeline_ai_failure SamplesExtra.noText SamplesExtra.noInherited env0
             (SamplesExtra.pipeline "paani nahi aa raha" "Water is not coming" 500 "down")
             SamplesExtra.cityDepartments llama EmptyString ComplaintForm.initialState
             (JBool true)
             (JObj [("text", JStr "paani nahi aa raha"); ("success", JBool true)])
             (JObj [("translated_text", JStr "Water is not coming");
                    ("original_text", JStr "paani nahi aa raha");
                    ("success", JBool true)])
             (JStr "Water is not coming")
             (Raised (IsError (newError "Local model server error: down")))
             eq_refl eq_refl eq_refl eq_refl eq_refl eq_refl eq_refl eq_refl).
  reflexivity.
Defined.

(** X20: the voice pipeline end to end when every stage succeeds.  With AI
    auto-fill on and a record returned for the final text whose department
    is an enum value, the form ends with the record's description, severity
    and summary, the record's location unless it is empty, the first loaded
    department named after the enum value's keyword, and the model chosen;
    the transcription holds the untranslated text. *)
Theorem voice_pipeline_fills_form (stringOf : JsVal -> string)
    (objectPrototypeText : string -> option string) (env : Env) (net : Network)
    (ds : list AutoFill.Department) (model : LLMModel) (audio : Blob)
    (st : ComplaintForm.State) (health result translationResult finalText llmOutput : JsVal)
    (dept keyword : string) :
  WhisperLocal.checkLocalWhisperHealth env net = Normal health ->
  truthy health = true ->
  WhisperLocal.transcribeAudioLocal env net audio = Normal result ->
  truthy (prop "success" result) = true ->
  WhisperLocal.translateToEnglishLocal env net (prop "text" result)
  = Normal translationResult ->
  ComplaintForm.chooseFinalText (prop "text" result) translationResult = Normal finalText ->
  ComplaintForm.useAIAutofill st = true ->
  callFineTunedLLM env net finalText model = Normal llmOutput ->
  prop "department" llmOutput = JStr dept ->
  AutoFill.deptMapping dept = Some keyword ->
  ComplaintForm.handleTranscribe env net
    (AutoFill.autoFill stringOf objectPrototypeText env net ds model) audio st
  = ComplaintForm.mkState
      (ComplaintForm.mkFormData
         (prop "description" llmOutput)
         (orElse (prop "location" llmOutput)
                 (ComplaintForm.location (ComplaintForm.formData st)))
         (prop "severity" llmOutput)
         (orElse (match firstNamed keyword ds with
                  | Some d => JStr (AutoFill.id d)
                  | None => JUndefined
                  end)
                 (ComplaintForm.department_id (ComplaintForm.formData st)))
         (prop "summary" llmOutput)
         (JStr (AutoFill.modelValue model)))
      false true (prop "text" result)
      (((ComplaintForm.toasts st
         ++ [ComplaintForm.mkToast "Transcription complete" false])
        ++ [ComplaintForm.mkToast "AI Processing" false])
       ++ [ComplaintForm.mkToast "AI Auto-fill Complete" false]).
Proof.
  intros Hh Hht Ht Hs Htr Hfinal Hai Hllm Hd Hk.
  rewrite (handleTranscribe_reaches_ai _ _ _ _ _ _ _ _ _ Hh Hht Ht Hs Htr Hfinal), Hai.
  unfold AutoFill.autoFill, AutoFill.processWithAI.
  cbn [AutoFill.selectedLLMModel AutoFill.setIsProcessingAI AutoFill.aiToast
       AutoFill.departments].
  rewrite Hllm.
  destruct llmOutput as [| | | | |items|fields]; try discriminate Hd.
  cbn [get]. rewrite Hd, (findDepartment_enum _ _ _ _ _ Hk).
  destruct st as [fd it ai tr0 ts]. simpl in Hai. subst ai. reflexivity.
Qed.

Lemma voice_pipeline_fills_form_witness :
  ComplaintForm.formData
    (ComplaintForm.handleTranscribe env0
       (SamplesExtra.pipeline "pipe phat gaya Juhu mein" "Pipe burst in Juhu" 200
                              (reply validLiteral))
       (AutoFill.autoFill SamplesExtra.noText SamplesExtra.noInherited env0
          (SamplesExtra.pipeline "pipe phat gaya Juhu mein" "Pipe burst in Juhu" 200
                                 (reply validLiteral))
          SamplesExtra.cityDepartments mistral)
       EmptyString ComplaintForm.initialState)
  = ComplaintForm.mkFormData (JStr "Pipe burst at Juhu") (JStr "Juhu") (JStr "high")
                             (JStr "d-2") (JStr "Pipe burst") (JStr "mistral").
Proof.
  rewrite (voice_pipeline_fills_form SamplesExtra.noText SamplesExtra.noInherited env0
             (SamplesExtra.pipeline "pipe phat gaya Juhu mein" "Pipe burst in Juhu" 200
                                    (reply validLiteral))
             SamplesExtra.cityDepartments mistral EmptyString ComplaintForm.initialState
             (JBool true)
             (JObj [("text", JStr "pipe phat gaya Juhu mein"); ("success", JBool true)])
             (JObj [("translated_text", JStr "Pipe burst in Juhu");
                    ("original_text", JStr "pipe phat gaya Juhu mein");
                    ("success", JBool true)])
             (JStr "Pipe burst in Juhu") (JObj validFields) "water_supply" "water"
             eq_refl eq_refl eq_refl eq_refl eq_refl eq_refl eq_refl eq_refl eq_refl eq_refl).
  reflexivity.
Defined.
